(** * A double-entry ledger core: shallow embedding and verification

    The development follows the Django application [core]:
    - [core/models.py]: [FiscalPeriod], [Account] (with [get_balance]),
      [JournalEntry] (with [total_debit], [total_credit], [clean]),
      [JournalLine] (with its three check constraints);
    - [core/migrations/0004_fill_line_no.py]: [forwards];
    - [core/views.py]: [JournalEntryListView.get_queryset], [mizan];
    - [core/services/balance_sheet.py]: [_account_balance_until],
      [generate_balance];
    - [core/services/income_statement.py]: [generate_income_statement].

    Modelling conventions.
    - A [DecimalField] with two decimal places is an integer number of
      hundredths ([Z]); [Decimal("0.00")] and the integer [0] are both [0].
    - A table is the list of its rows; a foreign key is the identity of the
      row it points to; a queryset is the list of rows it selects.
    - [Sum] over an empty selection is SQL [NULL], i.e. Python [None]:
      aggregates are [option Z] and the idiom [x or 0] is [or_zero].
    - A function that may raise returns a sum or an option. *)

From Stdlib Require Import ZArith List Bool String Ascii Lia Permutation Sorted.
Import ListNotations.
Local Open Scope string_scope.
Local Open Scope Z_scope.

(** ** Amounts and aggregates *)

Definition sum_Z (l : list Z) : Z := fold_right Z.add 0 l.

(** [Sum("field")] of the ORM: [None] when no row is selected. *)
Definition Sum {A : Type} (field : A -> Z) (rows : list A) : option Z :=
  match rows with
  | [] => None
  | _ :: _ => Some (sum_Z (map field rows))
  end.

(** Python's [x or Decimal("0.00")]: [None] and a zero amount are both falsy. *)
Definition or_zero (x : option Z) : Z :=
  match x with
  | Some v => if v =? 0 then 0 else v
  | None => 0
  end.

(** ** Calendar dates *)

Record date : Type := mk_date { d_year : Z; d_month : Z; d_day : Z }.

Definition date_eqb (a b : date) : bool :=
  (d_year a =? d_year b) && (d_month a =? d_month b) && (d_day a =? d_day b).

Definition date_leb (a b : date) : bool :=
  (d_year a <? d_year b)
  || ((d_year a =? d_year b)
      && ((d_month a <? d_month b)
          || ((d_month a =? d_month b) && (d_day a <=? d_day b)))).

Definition is_leap (y : Z) : bool :=
  ((y mod 4 =? 0) && negb (y mod 100 =? 0)) || (y mod 400 =? 0).

Definition days_in_month (y m : Z) : Z :=
  if m =? 2 then (if is_leap y then 29 else 28)
  else if (m =? 4) || (m =? 6) || (m =? 9) || (m =? 11) then 30
  else 31.

(** The values [datetime.date] can hold: MINYEAR = 1, MAXYEAR = 9999. *)
Definition valid_date (d : date) : bool :=
  (1 <=? d_year d) && (d_year d <=? 9999)
  && (1 <=? d_month d) && (d_month d <=? 12)
  && (1 <=? d_day d) && (d_day d <=? days_in_month (d_year d) (d_month d)).

(** The constructor [date(y, m, d)]: [None] stands for its [ValueError]. *)
Definition date_of (y m d : Z) : option date :=
  let r := mk_date y m d in if valid_date r then Some r else None.

(** ** models.py *)

Record FiscalPeriod : Type := mk_period {
  fp_year : Z;
  fp_month : Z;
  is_closed : bool
}.

Inductive AccountType : Type := ASSET | LIABILITY | EQUITY | INCOME | EXPENSE.

Definition AccountType_eqb (a b : AccountType) : bool :=
  match a, b with
  | ASSET, ASSET | LIABILITY, LIABILITY | EQUITY, EQUITY
  | INCOME, INCOME | EXPENSE, EXPENSE => true
  | _, _ => false
  end.

Record Account : Type := mk_account {
  acc_id : Z;
  acc_code : string;
  acc_name : string;
  acc_type : AccountType
}.

Inductive Status : Type := DRAFT | POSTED.

Definition Status_eqb (a b : Status) : bool :=
  match a, b with
  | DRAFT, DRAFT | POSTED, POSTED => true
  | _, _ => false
  end.

(** [je_pk] is [None] for an instance that has not been saved yet; [je_date]
    is [None] when the instance carries no date. *)
Record JournalEntry : Type := mk_entry {
  je_pk : option Z;
  je_date : option date;
  je_description : string;
  je_status : Status
}.

Record JournalLine : Type := mk_line {
  jl_id : Z;
  jl_entry_id : Z;
  jl_account_id : Z;
  jl_line_no : Z;
  jl_debit : Z;
  jl_credit : Z
}.

(** The persistent store: one list of rows per table. *)
Record Ledger : Type := mk_ledger {
  periods : list FiscalPeriod;
  accounts : list Account;
  entries : list JournalEntry;
  lines : list JournalLine
}.

Definition opt_Z_eqb (a b : option Z) : bool :=
  match a, b with
  | Some x, Some y => x =? y
  | None, None => true
  | _, _ => false
  end.

(** [self.lines.all()]: the rows whose [entry] key is the entry's identity. *)
Definition lines_of (db : Ledger) (e : JournalEntry) : list JournalLine :=
  filter (fun l => opt_Z_eqb (Some (jl_entry_id l)) (je_pk e)) (lines db).

Definition total_debit (db : Ledger) (e : JournalEntry) : Z :=
  sum_Z (map jl_debit (lines_of db e)).

Definition total_credit (db : Ledger) (e : JournalEntry) : Z :=
  sum_Z (map jl_credit (lines_of db e)).

Definition is_balanced (db : Ledger) (e : JournalEntry) : bool :=
  total_debit db e =? total_credit db e.

Definition balance (db : Ledger) (e : JournalEntry) : Z :=
  total_debit db e - total_credit db e.

(** The two [ValidationError]s of [JournalEntry.clean], told apart by the
    site that raises them: the closed-period message and the not-balanced
    message. *)
Inductive ValidationError : Type :=
| PeriodClosedError
| UnbalancedEntryError.

(** [year=self.date.year, month=self.date.month] *)
Definition period_matches (d : date) (p : FiscalPeriod) : bool :=
  (fp_year p =? d_year d) && (fp_month p =? d_month d).

(** [FiscalPeriod.objects.filter(year=.., month=..).first()] *)
Definition period_for (db : Ledger) (d : date) : option FiscalPeriod :=
  hd_error (filter (period_matches d) (periods db)).

(** [JournalEntry.clean]: [inl tt] when it returns, [inr err] when it raises.
    [not self.pk] holds for [None] and for the falsy key [0]. *)
Definition clean (db : Ledger) (e : JournalEntry) : unit + ValidationError :=
  let closed :=
    match je_date e with
    | Some d =>
        match period_for db d with
        | Some per => is_closed per
        | None => false
        end
    | None => false
    end in
  if closed then inr PeriodClosedError
  else
    match je_pk e with
    | None => inl tt
    | Some pk =>
        if pk =? 0 then inl tt
        else if Status_eqb (je_status e) POSTED
                && negb (total_debit db e =? total_credit db e)
        then inr UnbalancedEntryError
        else inl tt
    end.

(** The check constraints of [JournalLine.Meta], in the order declared. *)
Definition chk_no_both_positive_debit_credit (l : JournalLine) : bool :=
  negb (0 <? jl_debit l) || (jl_credit l =? 0).

Definition chk_no_both_positive_credit_debit (l : JournalLine) : bool :=
  negb (0 <? jl_credit l) || (jl_debit l =? 0).

Definition chk_must_have_amount (l : JournalLine) : bool :=
  (0 <? jl_debit l) || (0 <? jl_credit l).

Definition check_constraints (l : JournalLine) : bool :=
  chk_no_both_positive_debit_credit l
  && chk_no_both_positive_credit_debit l
  && chk_must_have_amount l.

(** ** Queries *)

(** Insertion sort: [order_by] with the comparison [leb]; rows that compare
    equal keep their relative order. *)
Fixpoint insert_by {A : Type} (leb : A -> A -> bool) (x : A) (l : list A) : list A :=
  match l with
  | [] => [x]
  | y :: l' => if leb x y then x :: l else y :: insert_by leb x l'
  end.

Definition order_by {A : Type} (leb : A -> A -> bool) (l : list A) : list A :=
  fold_right (insert_by leb) [] l.

(** The joins behind [entry__...] and [account__...] lookups. *)
Definition entry_of (db : Ledger) (l : JournalLine) : option JournalEntry :=
  find (fun e => opt_Z_eqb (je_pk e) (Some (jl_entry_id l))) (entries db).

Definition account_of (db : Ledger) (l : JournalLine) : option Account :=
  find (fun a => acc_id a =? jl_account_id l) (accounts db).

(** A condition on [entry__date]: false when the join or the date is missing. *)
Definition entry_date_is (db : Ledger) (p : date -> bool) (l : JournalLine) : bool :=
  match entry_of db l with
  | Some e => match je_date e with Some d => p d | None => false end
  | None => false
  end.

(** [Account.get_balance(year=None, month=None)]; [None] stands for the
    [ValueError] of the lookup [entry__date__year], which builds
    [date(year, 1, 1)] to bound the year. *)
Definition get_balance (db : Ledger) (self : Account) (year month : option Z)
  : option Z :=
  let qs := filter (fun l => jl_account_id l =? acc_id self) (lines db) in
  let qs := match year with
            | Some y =>
                match date_of y 1 1 with
                | Some _ => Some (filter (entry_date_is db (fun d => d_year d =? y)) qs)
                | None => None
                end
            | None => Some qs
            end in
  match qs with
  | None => None
  | Some qs =>
      let qs := match month with
                | Some m => filter (entry_date_is db (fun d => d_month d =? m)) qs
                | None => qs
                end in
      let total_debit := or_zero (Sum jl_debit qs) in
      let total_credit := or_zero (Sum jl_credit qs) in
      Some match acc_type self with
           | ASSET | EXPENSE => total_debit - total_credit
           | _ => total_credit - total_debit
           end
  end.

(** A row of [JournalLine.objects.select_related("entry", "account")]: both
    foreign keys are mandatory, so the joins are inner joins. *)
Record Joined : Type := mk_joined {
  j_line : JournalLine;
  j_entry : JournalEntry;
  j_account : Account
}.

Definition select_related (db : Ledger) : list Joined :=
  flat_map
    (fun l =>
       match entry_of db l, account_of db l with
       | Some e, Some a => [mk_joined l e a]
       | _, _ => []
       end)
    (lines db).

Definition j_date_is (p : date -> bool) (r : Joined) : bool :=
  match je_date (j_entry r) with Some d => p d | None => false end.

Definition entry__date__gte (d : date) : Joined -> bool := j_date_is (date_leb d).
Definition entry__date__lte (d : date) : Joined -> bool := j_date_is (fun x => date_leb x d).

(** [.values(keys).annotate(debit_sum=Sum("debit"), credit_sum=Sum("credit"))]:
    one row per distinct key, with the sums over the rows that carry it. *)
Section Grouping.
Context {K : Type} (K_eq_dec : forall a b : K, {a = b} + {a <> b}).
Variable key : Joined -> K.

Definition has_key (k : K) (r : Joined) : bool :=
  if K_eq_dec (key r) k then true else false.

Definition values_annotate (rows : list Joined) : list (K * option Z * option Z) :=
  map (fun k =>
         let g := filter (has_key k) rows in
         (k, Sum (fun r => jl_debit (j_line r)) g,
             Sum (fun r => jl_credit (j_line r)) g))
      (nodup K_eq_dec (map key rows)).
End Grouping.

(** ** ISO dates as text *)

Definition digit_char (n : Z) : ascii := ascii_of_N (Z.to_N (48 + n mod 10)).

Definition digit_of (c : ascii) : option Z :=
  let n := Z.of_N (N_of_ascii c) in
  if (48 <=? n) && (n <=? 57) then Some (n - 48) else None.

Definition two_digits (n : Z) (rest : string) : string :=
  String (digit_char (n / 10)) (String (digit_char n) rest).

(** [date.isoformat()]: YYYY-MM-DD, zero padded. *)
Definition isoformat (d : date) : string :=
  two_digits (d_year d / 100)
    (two_digits (d_year d)
       (String "-" (two_digits (d_month d) (String "-" (two_digits (d_day d) ""))))).

Definition number2 (a b : ascii) : option Z :=
  match digit_of a, digit_of b with
  | Some x, Some y => Some (10 * x + y)
  | _, _ => None
  end.

(** [date.fromisoformat(s)] on the calendar form YYYY-MM-DD, the form every
    interpreter version reads; [None] stands for its [ValueError].  The basic
    and week forms that newer interpreters also read are left out: a date
    returned here is the interpreter's answer on every version, while [None]
    is a [ValueError] on every version only for text that [never_iso] (below)
    holds of. *)
Definition fromisoformat (s : string) : option date :=
  match s with
  | String y1 (String y2 (String y3 (String y4 (String sep1
      (String m1 (String m2 (String sep2 (String d1 (String d2 EmptyString))))))))) =>
      if Ascii.eqb sep1 "-" && Ascii.eqb sep2 "-" then
        match number2 y1 y2, number2 y3 y4, number2 m1 m2, number2 d1 d2 with
        | Some yh, Some yl, Some m, Some d => date_of (100 * yh + yl) m d
        | _, _, _, _ => None
        end
      else None
  | _ => None
  end.

(** ** views.py *)

(** [request.GET]: the two query parameters the views read. *)
Record Request : Type := mk_request {
  GET_start : option string;
  GET_end : option string
}.

Definition truthy (s : string) : bool :=
  match s with EmptyString => false | String _ _ => true end.

(** [request.GET.get(name) or default] *)
Definition get_or (x : option string) (default : string) : string :=
  match x with
  | Some s => if truthy s then s else default
  | None => default
  end.

Definition opt_date_ltb (a b : option date) : bool :=
  match a, b with
  | Some x, Some y => negb (date_leb y x)
  | None, Some _ => true
  | _, None => false
  end.

Definition opt_date_eqb (a b : option date) : bool :=
  match a, b with
  | Some x, Some y => date_eqb x y
  | None, None => true
  | _, _ => false
  end.

Definition opt_Z_leb (a b : option Z) : bool :=
  match a, b with
  | Some x, Some y => x <=? y
  | None, _ => true
  | Some _, None => false
  end.

(** [order_by("-date", "-id")] *)
Definition by_date_desc_id_desc (a b : JournalEntry) : bool :=
  opt_date_ltb (je_date b) (je_date a)
  || (opt_date_eqb (je_date a) (je_date b) && opt_Z_leb (je_pk b) (je_pk a)).

(** What Django's [parse_date] does with a string: it returns a date, returns
    [None] (the string is not well formatted), or raises [ValueError]. *)
Inductive Parsed : Type :=
| ParsedDate (d : date)
| ParsedNone
| ParsedValueError.

Section JournalList.
(** [django.utils.dateparse.parse_date] belongs to the framework; the view
    is modelled for any behaviour of it. *)
Variable parse_date : string -> Parsed.

Definition parse_param (x : option string) : Parsed :=
  match x with
  | Some s => if truthy s then parse_date s else ParsedNone
  | None => ParsedNone
  end.

(** [JournalEntryListView.get_queryset]; [None] when [ValueError] escapes. *)
Definition get_queryset (req : Request) (db : Ledger) : option (list JournalEntry) :=
  let qs := order_by by_date_desc_id_desc (entries db) in
  match parse_param (GET_start req) with
  | ParsedValueError => None
  | start =>
      match parse_param (GET_end req) with
      | ParsedValueError => None
      | end_ =>
          let qs := match start with
                    | ParsedDate d =>
                        filter (fun e => match je_date e with
                                         | Some x => date_leb d x
                                         | None => false
                                         end) qs
                    | _ => qs
                    end in
          let qs := match end_ with
                    | ParsedDate d =>
                        filter (fun e => match je_date e with
                                         | Some x => date_leb x d
                                         | None => false
                                         end) qs
                    | _ => qs
                    end in
          Some qs
      end
  end.
End JournalList.

(** The queryset [lines] of [mizan] after its [try] block.  [today] is
    [date.today()].  A [ValueError] leaves the block at once, with [lines]
    as it was last assigned. *)
Definition mizan_lines (today : date) (req : Request) (db : Ledger) : list Joined :=
  let first_day := mk_date (d_year today) (d_month today) 1 in
  let start_str := get_or (GET_start req) (isoformat first_day) in
  let end_str := get_or (GET_end req) (isoformat today) in
  let lines := select_related db in
  let after_start :=
    if truthy start_str then
      match fromisoformat start_str with
      | Some d_start => Some (filter (entry__date__gte d_start) lines)
      | None => None
      end
    else Some lines in
  match after_start with
  | None => lines
  | Some lines =>
      if truthy end_str then
        match fromisoformat end_str with
        | Some d_end => filter (entry__date__lte d_end) lines
        | None => lines
        end
      else lines
  end.

Record MizanRow : Type := mk_mizan_row {
  mr_code : string;
  mr_name : string;
  mr_debit : Z;
  mr_credit : Z;
  mr_balance : Z
}.

Record MizanContext : Type := mk_mizan {
  mz_rows : list MizanRow;
  mz_total_debit : Z;
  mz_total_credit : Z;
  mz_total_balance : Z;
  mz_rows_count : Z;
  mz_lines_count : Z
}.

Definition code_name_eq_dec (a b : string * string) : {a = b} + {a <> b}.
Proof. decide equality; apply string_dec. Defined.

Definition by_code {V : Type} (code : V -> string) (a b : V) : bool :=
  String.leb (code a) (code b).

(** The grouped query [qs] of [mizan]. *)
Definition mizan_qs (lines : list Joined) : list (string * string * option Z * option Z) :=
  order_by (by_code (fun r => fst (fst (fst r))))
    (values_annotate code_name_eq_dec
       (fun r => (acc_code (j_account r), acc_name (j_account r))) lines).

(** One turn of the loop [for r in qs]: the state is
    [(rows, total_debit, total_credit)]. *)
Definition mizan_step (st : list MizanRow * Z * Z)
    (r : string * string * option Z * option Z) : list MizanRow * Z * Z :=
  let '(rows, total_debit, total_credit) := st in
  let '(code, name, debit_sum, credit_sum) := r in
  let d := or_zero debit_sum in
  let c := or_zero credit_sum in
  ((rows ++ [mk_mizan_row code name d c (d - c)])%list,
   total_debit + d, total_credit + c).

Definition mizan (today : date) (req : Request) (db : Ledger) : MizanContext :=
  let lines := mizan_lines today req db in
  let '(rows, total_debit, total_credit) :=
    fold_left mizan_step (mizan_qs lines) ([], 0, 0) in
  mk_mizan rows total_debit total_credit (total_debit - total_credit)
           (Z.of_nat (List.length rows)) (Z.of_nat (List.length lines)).

(** ** services/balance_sheet.py *)

(** [_account_balance_until(acc, year)]; [None] when [date(year, 12, 31)]
    raises. *)
Definition _account_balance_until (db : Ledger) (acc : Account) (year : Z) : option Z :=
  match date_of year 12 31 with
  | None => None
  | Some cutoff =>
      let qs := filter (entry_date_is db (fun d => date_leb d cutoff))
                  (filter (fun l => jl_account_id l =? acc_id acc) (lines db)) in
      let total_debit := or_zero (Sum jl_debit qs) in
      let total_credit := or_zero (Sum jl_credit qs) in
      Some match acc_type acc with
           | ASSET | EXPENSE => total_debit - total_credit
           | _ => total_credit - total_debit
           end
  end.

Record BalanceRow : Type := mk_balance_row {
  br_code : string;
  br_name : string;
  br_balance : Z
}.

Record BalanceSheet : Type := mk_balance_sheet {
  bs_assets : list BalanceRow;
  bs_liabilities : list BalanceRow;
  bs_equities : list BalanceRow;
  bs_total_assets : Z;
  bs_total_liabilities_equity : Z;
  bs_match : bool;
  bs_net_result : Z
}.

(** The state of the loop over the accounts:
    [assets], [liabilities], [equities], [income_total], [expense_total]. *)
Record BalanceAcc : Type := mk_balance_acc {
  ba_assets : list BalanceRow;
  ba_liabilities : list BalanceRow;
  ba_equities : list BalanceRow;
  ba_income_total : Z;
  ba_expense_total : Z
}.

Definition balance_step (db : Ledger) (year : Z) (st : option BalanceAcc) (acc : Account)
  : option BalanceAcc :=
  match st with
  | None => None
  | Some s =>
      match _account_balance_until db acc year with
      | None => None
      | Some bal =>
          if bal =? 0 then Some s
          else
            let row := mk_balance_row (acc_code acc) (acc_name acc) bal in
            Some match acc_type acc with
                 | ASSET =>
                     mk_balance_acc (ba_assets s ++ [row])%list (ba_liabilities s)
                       (ba_equities s) (ba_income_total s) (ba_expense_total s)
                 | LIABILITY =>
                     mk_balance_acc (ba_assets s) (ba_liabilities s ++ [row])%list
                       (ba_equities s) (ba_income_total s) (ba_expense_total s)
                 | EQUITY =>
                     mk_balance_acc (ba_assets s) (ba_liabilities s)
                       (ba_equities s ++ [row])%list (ba_income_total s)
                       (ba_expense_total s)
                 | INCOME =>
                     mk_balance_acc (ba_assets s) (ba_liabilities s) (ba_equities s)
                       (ba_income_total s + bal) (ba_expense_total s)
                 | EXPENSE =>
                     mk_balance_acc (ba_assets s) (ba_liabilities s) (ba_equities s)
                       (ba_income_total s) (ba_expense_total s + bal)
                 end
      end
  end.

Definition DNET_name : string := "Dönem Net Kâr/Zararı".

(** [sum(x["balance"] for x in rows) if rows else Decimal("0.00")] *)
Definition total_of (rows : list BalanceRow) : Z :=
  match rows with
  | [] => 0
  | _ :: _ => sum_Z (map br_balance rows)
  end.

(** [generate_balance(year)]; [None] when an exception escapes. *)
Definition generate_balance (db : Ledger) (year : Z) : option BalanceSheet :=
  match fold_left (balance_step db year)
          (order_by (by_code acc_code) (accounts db))
          (Some (mk_balance_acc [] [] [] 0 0)) with
  | None => None
  | Some s =>
      let net_result := ba_income_total s - ba_expense_total s in
      let equities :=
        if negb (net_result =? 0)
        then (ba_equities s ++ [mk_balance_row "DNET" DNET_name net_result])%list
        else ba_equities s in
      let total_assets := total_of (ba_assets s) in
      let total_liabilities := total_of (ba_liabilities s) in
      let total_equity := total_of equities in
      Some (mk_balance_sheet (ba_assets s) (ba_liabilities s) equities
              total_assets (total_liabilities + total_equity)
              (total_assets =? total_liabilities + total_equity)
              net_result)
  end.

(** ** services/income_statement.py *)

Record AmountRow : Type := mk_amount_row {
  ar_code : string;
  ar_name : string;
  ar_amount : Z
}.

Record IncomeStatement : Type := mk_income_statement {
  is_year : Z;
  is_incomes : list AmountRow;
  is_expenses : list AmountRow;
  is_total_income : Z;
  is_total_expense : Z;
  is_net_result : Z;
  is_profit : bool
}.

Definition AccountType_eq_dec (a b : AccountType) : {a = b} + {a <> b}.
Proof. decide equality. Defined.

Definition code_name_type_eq_dec (a b : string * string * AccountType)
  : {a = b} + {a <> b}.
Proof. decide equality; [apply AccountType_eq_dec | apply code_name_eq_dec]. Defined.

(** [code and code.startswith(p)] *)
Definition code_startswith (p code : string) : bool :=
  truthy code && String.prefix p code.

Definition is_income (code : string) (acc_type : AccountType) : bool :=
  code_startswith "6" code || AccountType_eqb acc_type INCOME.

Definition is_expense (code : string) (acc_type : AccountType) : bool :=
  code_startswith "7" code || AccountType_eqb acc_type EXPENSE.

Definition GroupRow : Type := (string * string * AccountType * option Z * option Z)%type.

(** The state of the loop [for r in qs]:
    [(incomes, expenses, total_income, total_expense)]. *)
Definition income_step (st : list AmountRow * list AmountRow * Z * Z) (r : GroupRow)
  : list AmountRow * list AmountRow * Z * Z :=
  let '(incomes, expenses, total_income, total_expense) := st in
  let '(code, name, acc_type, debit_sum, credit_sum) := r in
  let d := or_zero debit_sum in
  let c := or_zero credit_sum in
  if negb (is_income code acc_type) && negb (is_expense code acc_type) then st
  else if is_income code acc_type then
    let amount := c - d in
    if amount =? 0 then st
    else ((incomes ++ [mk_amount_row code name amount])%list, expenses,
          total_income + amount, total_expense)
  else if is_expense code acc_type then
    let amount := d - c in
    if amount =? 0 then st
    else (incomes, (expenses ++ [mk_amount_row code name amount])%list,
          total_income, total_expense + amount)
  else st.

Definition income_qs (db : Ledger) (start end_ : date) : list GroupRow :=
  let lines := filter (fun r => entry__date__gte start r && entry__date__lte end_ r)
                 (select_related db) in
  order_by (by_code (fun r : GroupRow => fst (fst (fst (fst r)))))
    (values_annotate code_name_type_eq_dec
       (fun r => (acc_code (j_account r), acc_name (j_account r),
                  acc_type (j_account r))) lines).

(** [generate_income_statement(year)]; [None] when [date(year, ..)] raises. *)
Definition generate_income_statement (db : Ledger) (year : Z) : option IncomeStatement :=
  match date_of year 1 1, date_of year 12 31 with
  | Some start, Some end_ =>
      let '(incomes, expenses, total_income, total_expense) :=
        fold_left income_step (income_qs db start end_) ([], [], 0, 0) in
      let net_result := total_income - total_expense in
      Some (mk_income_statement year incomes expenses total_income total_expense
              net_result (0 <=? net_result))
  | _, _ => None
  end.

(** ** migrations/0004_fill_line_no.py *)

(** [order_by("entry_id", "id")] *)
Definition by_entry_id_id (a b : JournalLine) : bool :=
  (jl_entry_id a <? jl_entry_id b)
  || ((jl_entry_id a =? jl_entry_id b) && (jl_id a <=? jl_id b)).

Definition set_line_no (n : Z) (l : JournalLine) : JournalLine :=
  mk_line (jl_id l) (jl_entry_id l) (jl_account_id l) n (jl_debit l) (jl_credit l).

(** [JournalLine.objects.filter(id=i).update(line_no=n)] *)
Definition update_line_no (i n : Z) (table : list JournalLine) : list JournalLine :=
  map (fun l => if jl_id l =? i then set_line_no n l else l) table.

(** The state of the loop of [forwards], with the table it writes to. *)
Record Cursor : Type := mk_cursor {
  current_entry : option Z;
  counter : Z;
  table : list JournalLine
}.

Definition forwards_step (st : Cursor) (jl : JournalLine) : Cursor :=
  let '(cur, cnt) :=
    if negb (opt_Z_eqb (Some (jl_entry_id jl)) (current_entry st))
    then (Some (jl_entry_id jl), 1)
    else (current_entry st, counter st + 1) in
  mk_cursor cur cnt (update_line_no (jl_id jl) cnt (table st)).

(** [forwards]: the loop runs over the rows as the query returned them. *)
Definition forwards (rows : list JournalLine) : list JournalLine :=
  table (fold_left forwards_step (order_by by_entry_id_id rows)
           (mk_cursor None 0 rows)).

(** The lines of entry [e] in identity order, and the numbers [1..n]. *)
Definition entry_lines (e : Z) (rows : list JournalLine) : list JournalLine :=
  filter (fun l => jl_entry_id l =? e) (order_by by_entry_id_id rows).

Definition one_to (n : nat) : list Z := map Z.of_nat (seq 1 n).

(** ** The store under writes

    Writes are modelled the way the admin performs them: an entry is saved
    after [clean] accepted it, a line after the check constraints and the
    foreign keys accepted it.  Deleting an entry cascades to its lines. *)

Inductive Op : Type :=
| SavePeriod (p : FiscalPeriod)   (* one record per (year, month) *)
| SaveAccount (a : Account)       (* the code is unique *)
| SaveEntry (e : JournalEntry)    (* create when [je_pk] is [None], else update *)
| SaveLine (l : JournalLine)      (* insert, or update of the row with that id *)
| DeleteEntry (pk : Z)            (* on_delete=CASCADE for the lines *)
| RunBackfill.                    (* migration 0004 *)

Definition next_pk (db : Ledger) : Z :=
  1 + fold_right (fun e m => match je_pk e with Some k => Z.max k m | None => m end)
        0 (entries db).

Definition has_pk (pk : Z) (e : JournalEntry) : bool := opt_Z_eqb (je_pk e) (Some pk).

Definition apply_op (db : Ledger) (op : Op) : option Ledger :=
  match op with
  | SavePeriod p =>
      Some (mk_ledger
              (p :: filter (fun q => negb ((fp_year q =? fp_year p)
                                           && (fp_month q =? fp_month p)))
                      (periods db))
              (accounts db) (entries db) (lines db))
  | SaveAccount a =>
      if existsb (fun b => String.eqb (acc_code b) (acc_code a)
                           && negb (acc_id b =? acc_id a)) (accounts db)
      then None
      else Some (mk_ledger (periods db)
                   (a :: filter (fun b => negb (acc_id b =? acc_id a)) (accounts db))
                   (entries db) (lines db))
  | SaveEntry e =>
      match clean db e with
      | inr _ => None
      | inl _ =>
          let pk := match je_pk e with Some k => k | None => next_pk db end in
          Some (mk_ledger (periods db) (accounts db)
                  (mk_entry (Some pk) (je_date e) (je_description e) (je_status e)
                   :: filter (fun x => negb (has_pk pk x)) (entries db))
                  (lines db))
      end
  | SaveLine l =>
      if check_constraints l
         && existsb (has_pk (jl_entry_id l)) (entries db)
         && existsb (fun a => acc_id a =? jl_account_id l) (accounts db)
      then Some (mk_ledger (periods db) (accounts db) (entries db)
                   (l :: filter (fun x => negb (jl_id x =? jl_id l)) (lines db)))
      else None
  | DeleteEntry pk =>
      Some (mk_ledger (periods db) (accounts db)
              (filter (fun x => negb (has_pk pk x)) (entries db))
              (filter (fun x => negb (jl_entry_id x =? pk)) (lines db)))
  | RunBackfill =>
      Some (mk_ledger (periods db) (accounts db) (entries db) (forwards (lines db)))
  end.

Fixpoint run (ops : list Op) (db : Ledger) : option Ledger :=
  match ops with
  | [] => Some db
  | op :: ops' =>
      match apply_op db op with
      | Some db' => run ops' db'
      | None => None
      end
  end.

Definition empty_ledger : Ledger := mk_ledger [] [] [] [].

Definition reachable (db : Ledger) : Prop :=
  exists ops, run ops empty_ledger = Some db.

(** The line-amount rule in words: one side strictly positive, the other zero. *)
Definition one_sided (l : JournalLine) : Prop :=
  (0 < jl_debit l /\ jl_credit l = 0) \/ (0 < jl_credit l /\ jl_debit l = 0).

(** ** The scenario of the reconciliation test

    Accounts 100 Cash, 300 Payable, 500 Capital, 600 Sales, 700 Rent and three
    entries in 2026; amounts in hundredths. *)

Definition scenario : Ledger :=
  mk_ledger []
    [ mk_account 1 "100" "Cash" ASSET;
      mk_account 2 "300" "Payable" LIABILITY;
      mk_account 3 "500" "Capital" EQUITY;
      mk_account 4 "600" "Sales" INCOME;
      mk_account 5 "700" "Rent" EXPENSE ]
    [ mk_entry (Some 1) (Some (mk_date 2026 3 1)) "capital injection" POSTED;
      mk_entry (Some 2) (Some (mk_date 2026 6 1)) "sale" POSTED;
      mk_entry (Some 3) (Some (mk_date 2026 6 2)) "rent paid" POSTED ]
    [ mk_line 1 1 1 1 100000 0;
      mk_line 2 1 3 2 0 100000;
      mk_line 3 2 1 1 20000 0;
      mk_line 4 2 4 2 0 20000;
      mk_line 5 3 5 1 5000 0;
      mk_line 6 3 1 2 0 5000 ].

Definition no_params : Request := mk_request None None.




(** [unique_together = ("year", "month")] *)
Definition periods_unique (db : Ledger) : Prop :=
  NoDup (map (fun p => (fp_year p, fp_month p)) (periods db)).

(** The entry is dated in a month for which a closed period record exists. *)
Definition in_closed_period (db : Ledger) (e : JournalEntry) : Prop :=
  exists d p, je_date e = Some d /\ In p (periods db)
              /\ fp_year p = d_year d /\ fp_month p = d_month d
              /\ is_closed p = true.

(** ** Concrete ledgers used as examples *)

Definition closed_january : Ledger :=
  mk_ledger [mk_period 2026 1 true] [] [] [].

Definition cash : Account := mk_account 1 "100" "Cash" ASSET.

(** A POSTED entry is created, then one debit line is attached to it. *)
Definition posting_then_line : list Op :=
  [ SaveAccount cash;
    SaveEntry (mk_entry None (Some (mk_date 2026 1 15)) "sale" POSTED);
    SaveLine (mk_line 1 1 1 1 10000 0) ].

Definition lopsided : Ledger :=
  mk_ledger [] [cash]
    [mk_entry (Some 1) (Some (mk_date 2026 1 15)) "sale" POSTED]
    [mk_line 1 1 1 1 10000 0].

(** The ledger [lopsided] after January 2026 was closed. *)
Definition lopsided_closed : Ledger :=
  mk_ledger [mk_period 2026 1 true] [cash]
    [mk_entry (Some 1) (Some (mk_date 2026 1 15)) "sale" POSTED]
    [mk_line 1 1 1 1 10000 0].

(** ** The income statement, described by sets of rows *)

Inductive Class : Type := ClsIncome | ClsExpense | ClsExcluded.

(** The branch of the loop of [generate_income_statement] an account takes. *)
Definition classify (code : string) (acc_type : AccountType) : Class :=
  if is_income code acc_type then ClsIncome
  else if is_expense code acc_type then ClsExpense
  else ClsExcluded.

(** The classification in the specification's words: the code prefix
    decides, the account type is consulted only as a fallback. *)
Definition spec_classify (code : string) (acc_type : AccountType) : Class :=
  if code_startswith "6" code then ClsIncome
  else if code_startswith "7" code then ClsExpense
  else match acc_type with
       | INCOME => ClsIncome
       | EXPENSE => ClsExpense
       | _ => ClsExcluded
       end.

Definition account_key (r : Joined) : string * string * AccountType :=
  (acc_code (j_account r), acc_name (j_account r), acc_type (j_account r)).

Definition lines_between (db : Ledger) (start end_ : date) : list Joined :=
  filter (fun r => entry__date__gte start r && entry__date__lte end_ r)
         (select_related db).

(** An account with lines in the period, with its plain debit and credit sums. *)
Record AccountTotals : Type := mk_totals {
  at_code : string;
  at_name : string;
  at_type : AccountType;
  at_debit : Z;
  at_credit : Z
}.

Definition totals_of (rows : list Joined) (k : string * string * AccountType)
  : AccountTotals :=
  let g := filter (has_key code_name_type_eq_dec account_key k) rows in
  mk_totals (fst (fst k)) (snd (fst k)) (snd k)
    (sum_Z (map (fun r => jl_debit (j_line r)) g))
    (sum_Z (map (fun r => jl_credit (j_line r)) g)).

Definition accounts_between (db : Ledger) (start end_ : date) : list AccountTotals :=
  let rows := lines_between db start end_ in
  map (totals_of rows)
      (order_by (by_code (fun k : string * string * AccountType => fst (fst k)))
         (nodup code_name_type_eq_dec (map account_key rows))).

Definition income_amount (g : AccountTotals) : Z := at_credit g - at_debit g.
Definition expense_amount (g : AccountTotals) : Z := at_debit g - at_credit g.

Definition listed_as_income (g : AccountTotals) : bool :=
  match classify (at_code g) (at_type g) with
  | ClsIncome => negb (income_amount g =? 0)
  | _ => false
  end.

Definition listed_as_expense (g : AccountTotals) : bool :=
  match classify (at_code g) (at_type g) with
  | ClsExpense => negb (expense_amount g =? 0)
  | _ => false
  end.

Definition income_rows (gs : list AccountTotals) : list AmountRow :=
  map (fun g => mk_amount_row (at_code g) (at_name g) (income_amount g))
      (filter listed_as_income gs).

Definition expense_rows (gs : list AccountTotals) : list AmountRow :=
  map (fun g => mk_amount_row (at_code g) (at_name g) (expense_amount g))
      (filter listed_as_expense gs).

(** An income-typed account that carries an expense-series code. *)
Definition rebates : Ledger :=
  mk_ledger []
    [ cash; mk_account 2 "700" "Rebates" INCOME ]
    [ mk_entry (Some 1) (Some (mk_date 2026 5 1)) "rebate received" POSTED ]
    [ mk_line 1 1 1 1 3000 0;
      mk_line 2 1 2 2 0 3000 ].

Definition to_totals (r : GroupRow) : AccountTotals :=
  let '(code, name, acc_type, debit_sum, credit_sum) := r in
  mk_totals code name acc_type (or_zero debit_sum) (or_zero credit_sum).

(** ** Well-formed ledgers *)

(** The foreign key of a line to its account. *)
Definition accounts_exist (db : Ledger) : Prop :=
  forall l, In l (lines db) ->
            exists a, In a (accounts db) /\ acc_id a = jl_account_id l.

Definition every_entry_balanced (db : Ledger) : Prop :=
  forall e, In e (entries db) -> total_debit db e = total_credit db e.

(** A condition on the entry's date, read off a line's [entry_id]. *)
Definition entry_id_sel (db : Ledger) (sel : option date -> bool) (i : Z) : bool :=
  match find (fun e => opt_Z_eqb (je_pk e) (Some i)) (entries db) with
  | Some e => sel (je_date e)
  | None => false
  end.

Definition on_date (p : date -> bool) (d : option date) : bool :=
  match d with Some x => p x | None => false end.

Definition mizan_row (r : string * string * option Z * option Z) : MizanRow :=
  let '(code, name, debit_sum, credit_sum) := r in
  mk_mizan_row code name (or_zero debit_sum) (or_zero credit_sum)
    (or_zero debit_sum - or_zero credit_sum).

(** ** The backfill, described per line *)

(** The counter of one turn of the loop of [forwards]. *)
Definition next_counter (cur : option Z) (cnt : Z) (jl : JournalLine) : Z :=
  if negb (opt_Z_eqb (Some (jl_entry_id jl)) cur) then 1 else cnt + 1.

(** The writes [(id, line_no)] the loop issues, in order. *)
Fixpoint numbering (cur : option Z) (cnt : Z) (todo : list JournalLine) : list (Z * Z) :=
  match todo with
  | [] => []
  | jl :: todo' =>
      let cnt' := next_counter cur cnt jl in
      (jl_id jl, cnt') :: numbering (Some (jl_entry_id jl)) cnt' todo'
  end.

(** The rows of the loop, each with the number the loop gives it. *)
Fixpoint renumber (cur : option Z) (cnt : Z) (todo : list JournalLine) : list JournalLine :=
  match todo with
  | [] => []
  | jl :: todo' =>
      let cnt' := next_counter cur cnt jl in
      set_line_no cnt' jl :: renumber (Some (jl_entry_id jl)) cnt' todo'
  end.

(** The effect of a sequence of writes on one row. *)
Definition write_one (l : JournalLine) (w : Z * Z) : JournalLine :=
  if jl_id l =? fst w then set_line_no (snd w) l else l.

Definition write_all (ws : list (Z * Z)) (l : JournalLine) : JournalLine :=
  fold_left write_one ws l.

(** The last number written to the row [i], if any. *)
Fixpoint last_write (ws : list (Z * Z)) (i : Z) : option Z :=
  match ws with
  | [] => None
  | w :: ws' =>
      match last_write ws' i with
      | Some c => Some c
      | None => if i =? fst w then Some (snd w) else None
      end
  end.

Definition le_entry_id (a b : JournalLine) : Prop := jl_entry_id a <= jl_entry_id b.

Definition of_entry (e : Z) (l : JournalLine) : bool := jl_entry_id l =? e.

(** Lines stored before numbering existed: every [line_no] is the default 1;
    identities are not in table order. *)
Definition backlog : list JournalLine :=
  [ mk_line 6 3 1 1 0 5000;
    mk_line 2 1 3 1 0 100000;
    mk_line 5 3 5 1 5000 0;
    mk_line 1 1 1 1 100000 0;
    mk_line 4 2 4 1 0 20000;
    mk_line 3 2 1 1 20000 0 ].

(** ** Requests used as examples *)

Definition mid_june : date := mk_date 2026 6 15.

(** An unreadable start together with a readable end. *)
Definition bad_start_good_end : Request :=
  mk_request (Some "not-a-date") (Some "2026-03-31").

Definition good_start_bad_end : Request :=
  mk_request (Some "2026-06-01") (Some "not-a-date").

(** [today.replace(day=1)] *)
Definition first_day_of (today : date) : date :=
  mk_date (d_year today) (d_month today) 1.

(** The rows whose entry is dated between [lo] and [hi]. *)
Definition window (lo hi : date) (r : Joined) : bool :=
  entry__date__gte lo r && entry__date__lte hi r.

(** ** The journal list page *)

(** The part of the template context that [get_context_data] adds. *)
Record JournalContext : Type := mk_journal_context {
  jc_entries : list JournalEntry;
  jc_start : string;
  jc_end : string;
  jc_entries_count : Z;
  jc_sum_debit : Z;
  jc_sum_credit : Z
}.

(** One turn of [for e in entries]: the state is [(sum_debit, sum_credit)]. *)
Definition context_step (db : Ledger) (st : Z * Z) (e : JournalEntry) : Z * Z :=
  (fst st + total_debit db e, snd st + total_credit db e).

(** [request.GET.get(name, "")] *)
Definition get_default (x : option string) : string :=
  match x with Some s => s | None => "" end.

(** [JournalEntryListView.get_context_data]; the view does not paginate, so
    [ctx["entries"]] is the queryset of [get_queryset]. *)
Definition get_context_data (parse_date : string -> Parsed) (req : Request)
    (db : Ledger) : option JournalContext :=
  match get_queryset parse_date req db with
  | None => None
  | Some entries =>
      let '(sum_debit, sum_credit) := fold_left (context_step db) entries (0, 0) in
      Some (mk_journal_context entries
              (get_default (GET_start req)) (get_default (GET_end req))
              (Z.of_nat (List.length entries)) sum_debit sum_credit)
  end.

(** A [parse_date] that never raises: unreadable text gives [None]. *)
Definition lenient_parse_date (s : string) : Parsed :=
  match fromisoformat s with
  | Some d => ParsedDate d
  | None => ParsedNone
  end.

(** The bounds a request puts on an entry's date. *)
Definition after_bound (b : Parsed) (e : JournalEntry) : Prop :=
  forall d, b = ParsedDate d -> exists x, je_date e = Some x /\ date_leb d x = true.

Definition before_bound (b : Parsed) (e : JournalEntry) : Prop :=
  forall d, b = ParsedDate d -> exists x, je_date e = Some x /\ date_leb x d = true.

(** The order of dates, a missing date coming first. *)
Definition opt_date_le (a b : option date) : Prop :=
  match a, b with
  | None, _ => True
  | Some _, None => False
  | Some x, Some y => date_leb x y = true
  end.

(** [b] does not come before [a] in the list: it is dated no later. *)
Definition dated_no_later (a b : JournalEntry) : Prop :=
  opt_date_le (je_date b) (je_date a).

(** The store after the backfill. *)
Definition backfilled (db : Ledger) : Ledger :=
  mk_ledger (periods db) (accounts db) (entries db) (forwards (lines db)).

(** Every field of a line but [line_no]. *)
Definition line_data (l : JournalLine) : Z * Z * Z * Z * Z :=
  (jl_id l, jl_entry_id l, jl_account_id l, jl_debit l, jl_credit l).

(** ** The trial balance, described by sets of rows *)

Definition code_name (r : Joined) : string * string :=
  (acc_code (j_account r), acc_name (j_account r)).

(** The row of the account [(code, name)], with plain sums over its lines. *)
Definition mizan_row_of (rows : list Joined) (k : string * string) : MizanRow :=
  let g := filter (has_key code_name_eq_dec code_name k) rows in
  let d := sum_Z (map (fun r => jl_debit (j_line r)) g) in
  let c := sum_Z (map (fun r => jl_credit (j_line r)) g) in
  mk_mizan_row (fst k) (snd k) d c (d - c).

(** The bound a query parameter asks for: the text when present and not
    empty, else the default; [None] when the text cannot be read. *)
Definition requested (x : option string) (default : date) : option date :=
  match x with
  | Some s => if truthy s then fromisoformat s else Some default
  | None => Some default
  end.

Definition code_le (a b : MizanRow) : Prop := String.leb (mr_code a) (mr_code b) = true.



(** ** The balance sheet, described by sets of rows *)

(** The lines of an account dated up to [cutoff]. *)
Definition lines_until (db : Ledger) (cutoff : date) (acc : Account) : list JournalLine :=
  filter (entry_date_is db (fun d => date_leb d cutoff))
    (filter (fun l => jl_account_id l =? acc_id acc) (lines db)).

(** Debit minus credit of an account up to [cutoff], before any sign rule. *)
Definition raw_until (db : Ledger) (cutoff : date) (acc : Account) : Z :=
  sum_Z (map jl_debit (lines_until db cutoff acc))
  - sum_Z (map jl_credit (lines_until db cutoff acc)).

(** The signed balance of an account up to [cutoff]. *)
Definition balance_until (db : Ledger) (cutoff : date) (acc : Account) : Z :=
  match acc_type acc with
  | ASSET | EXPENSE => raw_until db cutoff acc
  | _ => - raw_until db cutoff acc
  end.

Definition of_type (ty : AccountType) (a : Account) : bool :=
  AccountType_eqb (acc_type a) ty.

(** The rows of one section: the accounts of the type with a balance. *)
Definition section_rows (db : Ledger) (cutoff : date) (ty : AccountType)
    (accs : list Account) : list BalanceRow :=
  map (fun a => mk_balance_row (acc_code a) (acc_name a) (balance_until db cutoff a))
      (filter (fun a => of_type ty a && negb (balance_until db cutoff a =? 0)) accs).

Definition type_total (db : Ledger) (cutoff : date) (ty : AccountType)
    (accs : list Account) : Z :=
  sum_Z (map (balance_until db cutoff) (filter (of_type ty) accs)).

(** The synthetic row of the period's net result. *)
Definition net_row (net : Z) : list BalanceRow :=
  if negb (net =? 0) then [mk_balance_row "DNET" DNET_name net] else [].

Definition empty_sheet : BalanceSheet :=
  mk_balance_sheet [] [] [] 0 0 true 0.

(** The primary key of the accounts. *)
Definition account_ids_unique (db : Ledger) : Prop :=
  NoDup (map acc_id (accounts db)).

(** ** Windows of [get_balance] *)

(** Stored dates are dates of the calendar. *)
Definition dates_valid (db : Ledger) : Prop :=
  forall e d, In e (entries db) -> je_date e = Some d -> valid_date d = true.

(** The month of a line's entry, 0 when the line has no dated entry. *)
Definition month_of (db : Ledger) (l : JournalLine) : Z :=
  match entry_of db l with
  | Some e => match je_date e with Some d => d_month d | None => 0 end
  | None => 0
  end.

Definition months : list Z := [1; 2; 3; 4; 5; 6; 7; 8; 9; 10; 11; 12].

(** * Proofs *)

(** ** Aggregates *)

Lemma or_zero_Sum {A : Type} (f : A -> Z) (rows : list A) :
  or_zero (Sum f rows) = sum_Z (map f rows).
Proof.
  destruct rows as [|r rows]; [reflexivity|].
  unfold Sum, or_zero.
  destruct (Z.eqb_spec (sum_Z (map f (r :: rows))) 0) as [E|_]; congruence.
Qed.

Lemma sum_Z_app (l1 l2 : list Z) : sum_Z (l1 ++ l2) = sum_Z l1 + sum_Z l2.
Proof. induction l1 as [|x l1 IH]; simpl; [reflexivity | rewrite IH; lia]. Qed.

Lemma sum_Z_perm (l1 l2 : list Z) : Permutation l1 l2 -> sum_Z l1 = sum_Z l2.
Proof. induction 1; simpl; lia. Qed.

Lemma filter_filter {A : Type} (p q : A -> bool) (l : list A) :
  filter q (filter p l) = filter (fun x => p x && q x) l.
Proof.
  induction l as [|x l IH]; simpl; [reflexivity|].
  destruct (p x); simpl; [destruct (q x)|]; rewrite ?IH; reflexivity.
Qed.

(** ** Account.get_balance *)


Lemma year_lookup (y : Z) :
  1 <= y <= 9999 -> date_of y 1 1 = Some (mk_date y 1 1).
Proof.
  intro H. unfold date_of, valid_date; simpl.
  replace (1 <=? y) with true by (symmetry; apply Z.leb_le; lia).
  replace (y <=? 9999) with true by (symmetry; apply Z.leb_le; lia).
  reflexivity.
Qed.







(** ** JournalEntry.clean *)

Lemma period_matches_key (d : date) (p : FiscalPeriod) :
  period_matches d p = true <-> (fp_year p, fp_month p) = (d_year d, d_month d).
Proof.
  unfold period_matches. rewrite andb_true_iff, !Z.eqb_eq.
  split; [intros [-> ->]; reflexivity | intros [= -> ->]; auto].
Qed.

(** Under the uniqueness constraint the record that [first()] returns is the
    only record of its month. *)
Lemma period_for_unique (ps : list FiscalPeriod) (d : date) (p : FiscalPeriod) :
  NoDup (map (fun p => (fp_year p, fp_month p)) ps) ->
  In p ps -> period_matches d p = true ->
  hd_error (filter (period_matches d) ps) = Some p.
Proof.
  induction ps as [|q ps IH]; simpl; intros ND HIn Hm; [contradiction|].
  inversion ND as [|k ks Hnotin ND' Heq]; subst.
  destruct (period_matches d q) eqn:Hq.
  - simpl. destruct HIn as [->|HIn]; [reflexivity|].
    exfalso. apply Hnotin.
    apply period_matches_key in Hq. apply period_matches_key in Hm.
    rewrite Hq, <- Hm. apply (in_map (fun p => (fp_year p, fp_month p))), HIn.
  - destruct HIn as [->|HIn]; [congruence | auto].
Qed.

Lemma period_for_some (db : Ledger) (d : date) (p : FiscalPeriod) :
  period_for db d = Some p -> In p (periods db) /\ period_matches d p = true.
Proof.
  unfold period_for.
  intro H. apply (proj1 (filter_In (period_matches d) p (periods db))).
  destruct (filter (period_matches d) (periods db)) as [|q l] eqn:E;
    [discriminate|].
  injection H as ->. left; reflexivity.
Qed.

Lemma clean_period_closed (db : Ledger) (e : JournalEntry) :
  clean db e = inr PeriodClosedError <->
  exists d p, je_date e = Some d /\ period_for db d = Some p /\ is_closed p = true.
Proof.
  unfold clean. split.
  - destruct (je_date e) as [d|] eqn:Hd.
    + destruct (period_for db d) as [p|] eqn:Hp.
      * destruct (is_closed p) eqn:Hc; [intros _; exists d, p; auto|].
        destruct (je_pk e) as [k|]; [|discriminate].
        destruct (k =? 0); [discriminate|].
        destruct (_ && _); discriminate.
      * destruct (je_pk e) as [k|]; [|discriminate].
        destruct (k =? 0); [discriminate|].
        destruct (_ && _); discriminate.
    + destruct (je_pk e) as [k|]; [|discriminate].
      destruct (k =? 0); [discriminate|].
      destruct (_ && _); discriminate.
  - intros (d & p & -> & -> & ->). reflexivity.
Qed.

(** C2. For an entry dated in a month whose FiscalPeriod record is closed,
    [clean] raises the closed-period error whatever the entry's status and
    whether or not it has been saved before; when the month has no record, or
    its record is open, the closed-period error is not raised. *)
Theorem clean_rejects_closed_period (db : Ledger) (e : JournalEntry) (d : date) :
  periods_unique db ->
  je_date e = Some d ->
  (clean db e = inr PeriodClosedError <->
   exists p, In p (periods db) /\ fp_year p = d_year d /\ fp_month p = d_month d
             /\ is_closed p = true).
Proof.
  intros ND Hd. rewrite clean_period_closed. split.
  - intros (d' & p & Hd' & Hp & Hc).
    assert (d' = d) by congruence; subst d'.
    apply period_for_some in Hp as [HIn Hm].
    exists p. apply period_matches_key in Hm. injection Hm as Hy Hmo. auto.
  - intros (p & HIn & Hy & Hmo & Hc).
    exists d, p. repeat split; auto.
    unfold period_for.
    apply period_for_unique; auto.
    apply period_matches_key. congruence.
Qed.

Lemma clean_rejects_closed_period_witness :
  clean closed_january (mk_entry None (Some (mk_date 2026 1 15)) "opening" DRAFT)
    = inr PeriodClosedError
  /\ clean closed_january (mk_entry (Some 7) (Some (mk_date 2026 1 15)) "fix" POSTED)
    = inr PeriodClosedError.
Proof.
  split.
  - apply (proj2 (clean_rejects_closed_period closed_january
                    (mk_entry None (Some (mk_date 2026 1 15)) "opening" DRAFT)
                    (mk_date 2026 1 15)
                    ltac:(repeat constructor; simpl; tauto) eq_refl)).
    exists (mk_period 2026 1 true). simpl. tauto.
  - apply (proj2 (clean_rejects_closed_period closed_january
                    (mk_entry (Some 7) (Some (mk_date 2026 1 15)) "fix" POSTED)
                    (mk_date 2026 1 15)
                    ltac:(repeat constructor; simpl; tauto) eq_refl)).
    exists (mk_period 2026 1 true). simpl. tauto.
Defined.

Lemma clean_unbalanced (db : Ledger) (e : JournalEntry) :
  clean db e = inr UnbalancedEntryError <->
  clean db e <> inr PeriodClosedError
  /\ exists pk, je_pk e = Some pk /\ pk <> 0 /\ je_status e = POSTED
                /\ total_debit db e <> total_credit db e.
Proof.
  unfold clean.
  destruct (match je_date e with
            | Some d => match period_for db d with
                        | Some per => is_closed per
                        | None => false
                        end
            | None => false
            end).
  { split; [discriminate | intros [H _]; congruence]. }
  destruct (je_pk e) as [pk|].
  2:{ split; [discriminate | intros [_ (pk & [=] & _)]]. }
  destruct (Z.eqb_spec pk 0) as [->|Hpk].
  { split; [discriminate | intros [_ (pk & [= <-] & H0 & _)]; congruence]. }
  destruct (je_status e); simpl.
  { split; [discriminate | intros [_ (k & _ & _ & [=] & _)]]. }
  destruct (Z.eqb_spec (total_debit db e) (total_credit db e)) as [Heq|Hne]; simpl.
  - split; [discriminate | intros [_ (k & _ & _ & _ & H)]; congruence].
  - split; [intros _; split; [discriminate | exists pk; auto] | reflexivity].
Qed.

Lemma clean_closed_period (db : Ledger) (e : JournalEntry) :
  periods_unique db ->
  (clean db e = inr PeriodClosedError <-> in_closed_period db e).
Proof.
  intro ND. rewrite clean_period_closed. unfold in_closed_period. split.
  - intros (d & p & Hd & Hp & Hc).
    apply period_for_some in Hp as [HIn Hm].
    apply period_matches_key in Hm. injection Hm as Hy Hmo.
    exists d, p. auto.
  - intros (d & p & Hd & HIn & Hy & Hmo & Hc).
    exists d, p. repeat split; auto.
    unfold period_for. apply period_for_unique; auto.
    apply period_matches_key. congruence.
Qed.

(** Outside a closed period only the identity, the status and the totals
    decide. *)
Lemma clean_open_period (db : Ledger) (e : JournalEntry) :
  clean db e <> inr PeriodClosedError ->
  clean db e = match je_pk e with
               | None => inl tt
               | Some pk =>
                   if pk =? 0 then inl tt
                   else if Status_eqb (je_status e) POSTED
                           && negb (total_debit db e =? total_credit db e)
                        then inr UnbalancedEntryError
                        else inl tt
               end.
Proof.
  unfold clean.
  destruct (match je_date e with
            | Some d => match period_for db d with
                        | Some per => is_closed per
                        | None => false
                        end
            | None => false
            end); [intro H; exfalso; apply H; reflexivity | reflexivity].
Qed.

(** C1 (as amended). With (year, month) unique among the period records:
    for an entry that was saved before (its primary key is set and not 0),
    is POSTED and whose stored lines' debit total differs from their credit
    total, [clean] raises the closed-period error when a closed period record
    exists for the month of its date, and the not-balanced error otherwise.
    For an entry without a primary key (or with the falsy key 0) the balance
    is not checked: [clean] raises the closed-period error under the same
    condition and accepts the entry otherwise. *)
Theorem clean_balance_check (db : Ledger) (e : JournalEntry) :
  periods_unique db ->
  (forall pk, je_pk e = Some pk -> pk <> 0 -> je_status e = POSTED ->
      total_debit db e <> total_credit db e ->
      (in_closed_period db e -> clean db e = inr PeriodClosedError)
      /\ (~ in_closed_period db e -> clean db e = inr UnbalancedEntryError))
  /\ (je_pk e = None \/ je_pk e = Some 0 ->
      (in_closed_period db e -> clean db e = inr PeriodClosedError)
      /\ (~ in_closed_period db e -> clean db e = inl tt)).
Proof.
  intro ND. split.
  - intros pk Hpk H0 Hs Hne. split.
    + apply (clean_closed_period db e ND).
    + intro Hopen.
      rewrite clean_open_period
        by (intro C; apply Hopen, (clean_closed_period db e ND), C).
      rewrite Hpk, Hs.
      destruct (Z.eqb_spec pk 0) as [E|_]; [contradiction|].
      destruct (Z.eqb_spec (total_debit db e) (total_credit db e)) as [E|_];
        [contradiction | reflexivity].
  - intros Hnew. split.
    + apply (clean_closed_period db e ND).
    + intro Hopen.
      rewrite clean_open_period
        by (intro C; apply Hopen, (clean_closed_period db e ND), C).
      destruct Hnew as [-> | ->]; reflexivity.
Qed.

Lemma clean_balance_check_witness :
  clean lopsided (mk_entry (Some 1) (Some (mk_date 2026 1 15)) "sale" POSTED)
    = inr UnbalancedEntryError
  /\ clean lopsided_closed (mk_entry (Some 1) (Some (mk_date 2026 1 15)) "sale" POSTED)
    = inr PeriodClosedError
  /\ clean lopsided (mk_entry None (Some (mk_date 2026 1 15)) "sale" POSTED)
    = inl tt.
Proof.
  split; [|split].
  - apply (proj1 (clean_balance_check lopsided
             (mk_entry (Some 1) (Some (mk_date 2026 1 15)) "sale" POSTED)
             (NoDup_nil _)) 1 eq_refl).
    + discriminate.
    + reflexivity.
    + vm_compute. discriminate.
    + intros (d & p & _ & [] & _).
  - apply (proj1 (clean_balance_check lopsided_closed
             (mk_entry (Some 1) (Some (mk_date 2026 1 15)) "sale" POSTED)
             ltac:(repeat constructor; simpl; tauto)) 1 eq_refl).
    + discriminate.
    + reflexivity.
    + vm_compute. discriminate.
    + exists (mk_date 2026 1 15), (mk_period 2026 1 true). simpl. tauto.
  - apply (proj2 (clean_balance_check lopsided
             (mk_entry None (Some (mk_date 2026 1 15)) "sale" POSTED)
             (NoDup_nil _))).
    + left. reflexivity.
    + intros (d & p & _ & [] & _).
Defined.

(** C1 (as stated) fails: creating a POSTED entry passes validation, and a
    debit line attached to it afterwards is accepted by the line constraints,
    so a ledger with an unbalanced POSTED entry is reached. *)
Lemma posted_entry_unbalanced_reachable :
  clean (mk_ledger [] [cash] [] [])
        (mk_entry None (Some (mk_date 2026 1 15)) "sale" POSTED) = inl tt
  /\ run posting_then_line empty_ledger = Some lopsided
  /\ ~ (forall db e, reachable db -> In e (entries db) -> je_status e = POSTED ->
        total_debit db e = total_credit db e).
Proof.
  split; [reflexivity|]. split; [reflexivity|].
  intro H.
  specialize (H lopsided (mk_entry (Some 1) (Some (mk_date 2026 1 15)) "sale" POSTED)).
  assert (C : total_debit lopsided
                (mk_entry (Some 1) (Some (mk_date 2026 1 15)) "sale" POSTED)
              = total_credit lopsided
                (mk_entry (Some 1) (Some (mk_date 2026 1 15)) "sale" POSTED)).
  { apply H; [exists posting_then_line; reflexivity | left; reflexivity | reflexivity]. }
  vm_compute in C. discriminate.
Qed.

(** ** The line constraints *)

Lemma check_constraints_iff (l : JournalLine) :
  check_constraints l = true <-> one_sided l.
Proof.
  unfold check_constraints, chk_no_both_positive_debit_credit,
    chk_no_both_positive_credit_debit, chk_must_have_amount, one_sided.
  rewrite !andb_true_iff, !orb_true_iff, !negb_true_iff, !Z.eqb_eq,
    !Z.ltb_lt, !Z.ltb_ge.
  lia.
Qed.

Lemma set_line_no_one_sided (n : Z) (l : JournalLine) :
  one_sided l -> one_sided (set_line_no n l).
Proof. exact (fun H => H). Qed.

Section TablePredicate.
Variable P : JournalLine -> Prop.
Hypothesis P_set_line_no : forall n l, P l -> P (set_line_no n l).

Lemma update_line_no_Forall (i n : Z) (rows : list JournalLine) :
  Forall P rows -> Forall P (update_line_no i n rows).
Proof.
  unfold update_line_no. induction 1 as [|l rows Hl _ IH]; simpl; constructor; auto.
  destruct (jl_id l =? i); auto.
Qed.

Lemma forwards_loop_Forall (todo : list JournalLine) (st : Cursor) :
  Forall P (table st) -> Forall P (table (fold_left forwards_step todo st)).
Proof.
  revert st. induction todo as [|jl todo IH]; intros st H; simpl; [exact H|].
  apply IH. unfold forwards_step.
  destruct (negb _); simpl; apply update_line_no_Forall, H.
Qed.

Lemma forwards_Forall (rows : list JournalLine) :
  Forall P rows -> Forall P (forwards rows).
Proof. intro H. unfold forwards. apply forwards_loop_Forall, H. Qed.
End TablePredicate.

Lemma Forall_filter {A : Type} (P : A -> Prop) (f : A -> bool) (l : list A) :
  Forall P l -> Forall P (filter f l).
Proof.
  induction 1 as [|x l Hx _ IH]; simpl; [constructor|].
  destruct (f x); [constructor|]; assumption.
Qed.

(** A line write that the store accepts carries a one-sided amount; the
    entry's status plays no part in the check. *)
Lemma apply_op_lines (db db' : Ledger) (op : Op) :
  apply_op db op = Some db' ->
  Forall one_sided (lines db) -> Forall one_sided (lines db').
Proof.
  destruct op as [p|a|e|l|pk|]; simpl; intros H HF.
  - injection H as <-; exact HF.
  - destruct (existsb _ _); [discriminate | injection H as <-; exact HF].
  - destruct (clean db e); [injection H as <-; exact HF | discriminate].
  - destruct (check_constraints l) eqn:Hc; simpl in H; [|discriminate].
    destruct (_ && _); [|discriminate]. injection H as <-; simpl.
    constructor; [apply check_constraints_iff, Hc | apply Forall_filter, HF].
  - injection H as <-; simpl. apply Forall_filter, HF.
  - injection H as <-; simpl.
    apply forwards_Forall; [exact set_line_no_one_sided | exact HF].
Qed.

Lemma save_line_rejected (db : Ledger) (l : JournalLine) :
  ~ one_sided l -> apply_op db (SaveLine l) = None.
Proof.
  intro H. simpl. destruct (check_constraints l) eqn:E; [|reflexivity].
  apply check_constraints_iff in E. contradiction.
Qed.

Lemma run_lines (ops : list Op) (db db' : Ledger) :
  run ops db = Some db' ->
  Forall one_sided (lines db) -> Forall one_sided (lines db').
Proof.
  revert db. induction ops as [|op ops IH]; simpl; intros db H HF.
  - injection H as <-; exact HF.
  - destruct (apply_op db op) as [db1|] eqn:E; [|discriminate].
    apply (IH db1 H). apply (apply_op_lines db db1 op E HF).
Qed.

(** C4. Every line of a reachable store has non-negative debit and credit,
    never both strictly positive, at least one strictly positive: exactly one
    side is strictly positive and the other is zero.  The check is made on
    every line write and does not look at the owning entry. *)
Theorem stored_line_amounts (db : Ledger) (l : JournalLine) :
  reachable db -> In l (lines db) ->
  0 <= jl_debit l /\ 0 <= jl_credit l
  /\ ~ (0 < jl_debit l /\ 0 < jl_credit l)
  /\ (0 < jl_debit l \/ 0 < jl_credit l)
  /\ one_sided l.
Proof.
  intros [ops Hrun] HIn.
  assert (H : one_sided l).
  { pose proof (run_lines ops empty_ledger db Hrun (Forall_nil _)) as HF.
    rewrite Forall_forall in HF. apply HF, HIn. }
  unfold one_sided in *. lia.
Qed.

Lemma stored_line_amounts_witness :
  0 <= 10000 /\ 0 <= 0 /\ ~ (0 < 10000 /\ 0 < 0) /\ (0 < 10000 \/ 0 < 0)
  /\ one_sided (mk_line 1 1 1 1 10000 0).
Proof.
  apply (stored_line_amounts lopsided (mk_line 1 1 1 1 10000 0)).
  - exists posting_then_line. reflexivity.
  - simpl. left. reflexivity.
Defined.

(** ** Sorting *)

Lemma order_by_map {A B : Type} (f : A -> B) (lebA : A -> A -> bool)
    (lebB : B -> B -> bool) (l : list A) :
  (forall a b, lebB (f a) (f b) = lebA a b) ->
  order_by lebB (map f l) = map f (order_by lebA l).
Proof.
  intro H.
  assert (Hins : forall x s, insert_by lebB (f x) (map f s) = map f (insert_by lebA x s)).
  { intros x s. induction s as [|y s IH]; simpl; [reflexivity|].
    rewrite H. destruct (lebA x y); simpl; [reflexivity | rewrite IH; reflexivity]. }
  induction l as [|x l IH]; simpl; [reflexivity|].
  rewrite IH. apply Hins.
Qed.

Lemma insert_by_perm {A : Type} (leb : A -> A -> bool) (x : A) (l : list A) :
  Permutation (x :: l) (insert_by leb x l).
Proof.
  induction l as [|y l IH]; simpl; [reflexivity|].
  destruct (leb x y); [reflexivity|].
  rewrite perm_swap. apply perm_skip, IH.
Qed.

Lemma order_by_perm {A : Type} (leb : A -> A -> bool) (l : list A) :
  Permutation l (order_by leb l).
Proof.
  induction l as [|x l IH]; simpl; [reflexivity|].
  rewrite <- insert_by_perm. apply perm_skip, IH.
Qed.

(** ** The balance sheet of the reconciliation scenario *)

(** C6. For the five accounts and three entries of the scenario the balance
    sheet of 2026 lists assets [100: 1150], no liabilities, equities
    [500: 1000, DNET: 150], totals 1150 and 1150, match true, net result 150
    (amounts in hundredths). *)
Theorem balance_sheet_scenario :
  generate_balance scenario 2026 =
  Some (mk_balance_sheet
          [mk_balance_row "100" "Cash" 115000]
          []
          [mk_balance_row "500" "Capital" 100000;
           mk_balance_row "DNET" DNET_name 15000]
          115000 115000 true 15000).
Proof. vm_compute. reflexivity. Qed.

Example income_statement_scenario :
  generate_income_statement scenario 2026 =
  Some (mk_income_statement 2026
          [mk_amount_row "600" "Sales" 20000]
          [mk_amount_row "700" "Rent" 5000]
          20000 5000 15000 true).
Proof. vm_compute. reflexivity. Qed.

(** ** The income statement *)

Lemma listed_exclusive (g : AccountTotals) :
  listed_as_income g = true -> listed_as_expense g = false.
Proof.
  unfold listed_as_income, listed_as_expense.
  destruct (classify (at_code g) (at_type g)); [reflexivity | discriminate | reflexivity].
Qed.

Lemma income_step_cases (r : GroupRow) (incomes expenses : list AmountRow)
    (total_income total_expense : Z) :
  income_step (incomes, expenses, total_income, total_expense) r =
  let g := to_totals r in
  if listed_as_income g then
    ((incomes ++ [mk_amount_row (at_code g) (at_name g) (income_amount g)])%list,
     expenses, total_income + income_amount g, total_expense)
  else if listed_as_expense g then
    (incomes,
     (expenses ++ [mk_amount_row (at_code g) (at_name g) (expense_amount g)])%list,
     total_income, total_expense + expense_amount g)
  else (incomes, expenses, total_income, total_expense).
Proof.
  destruct r as [[[[code name] ty] ds] cs].
  unfold income_step, listed_as_income, listed_as_expense, classify,
    income_amount, expense_amount; simpl.
  destruct (is_income code ty), (is_expense code ty); simpl;
    try destruct (or_zero cs - or_zero ds =? 0);
    try destruct (or_zero ds - or_zero cs =? 0); reflexivity.
Qed.

Lemma income_loop (qs : list GroupRow) (incomes expenses : list AmountRow)
    (total_income total_expense : Z) :
  fold_left income_step qs (incomes, expenses, total_income, total_expense) =
  ((incomes ++ income_rows (map to_totals qs))%list,
   (expenses ++ expense_rows (map to_totals qs))%list,
   total_income + sum_Z (map ar_amount (income_rows (map to_totals qs))),
   total_expense + sum_Z (map ar_amount (expense_rows (map to_totals qs)))).
Proof.
  revert incomes expenses total_income total_expense.
  induction qs as [|r qs IH]; intros incomes expenses ti te.
  - simpl. rewrite !app_nil_r, !Z.add_0_r. reflexivity.
  - cbn [fold_left map]. rewrite income_step_cases. cbv zeta.
    unfold income_rows, expense_rows in *. cbn [filter].
    destruct (listed_as_income (to_totals r)) eqn:Hi.
    + rewrite (listed_exclusive _ Hi), IH.
      cbn [map sum_Z fold_right ar_amount].
      rewrite <- !app_assoc, Z.add_assoc. reflexivity.
    + destruct (listed_as_expense (to_totals r)) eqn:He.
      * rewrite IH. cbn [map sum_Z fold_right ar_amount].
        rewrite <- !app_assoc, Z.add_assoc. reflexivity.
      * apply IH.
Qed.

Lemma income_qs_totals (db : Ledger) (start end_ : date) :
  map to_totals (income_qs db start end_) = accounts_between db start end_.
Proof.
  unfold income_qs, accounts_between, values_annotate, lines_between.
  set (rows := filter _ (select_related db)).
  erewrite order_by_map with
    (lebA := by_code (fun k : string * string * AccountType => fst (fst k))).
  2:{ intros [[c1 n1] t1] [[c2 n2] t2]. reflexivity. }
  rewrite map_map. apply map_ext. intros [[code name] ty].
  unfold to_totals, totals_of. rewrite !or_zero_Sum. reflexivity.
Qed.

Lemma classify_income (code : string) (ty : AccountType) :
  classify code ty = ClsIncome <->
  code_startswith "6" code = true \/ ty = INCOME.
Proof.
  unfold classify, is_income, is_expense.
  destruct (code_startswith "6" code), (code_startswith "7" code), ty;
    simpl; split; intro H; try reflexivity; try discriminate; auto;
    destruct H; discriminate.
Qed.

Lemma classify_expense (code : string) (ty : AccountType) :
  classify code ty = ClsExpense <->
  (code_startswith "7" code = true \/ ty = EXPENSE)
  /\ ~ (code_startswith "6" code = true \/ ty = INCOME).
Proof.
  unfold classify, is_income, is_expense.
  destruct (code_startswith "6" code), (code_startswith "7" code), ty;
    simpl; split; intro H; try reflexivity; try discriminate;
    try (split; [auto | intros [?|?]; discriminate]);
    try (destruct H as [_ H]; exfalso; apply H; auto; fail);
    try (destruct H as [[?|?] _]; discriminate).
Qed.

(** C7 (as amended). For a year that [date] accepts, the income statement
    lists, per account with lines in that year and in code order: under
    incomes the accounts whose code starts with "6" or whose type is INCOME,
    with amount credit sum minus debit sum; under expenses the accounts whose
    code starts with "7" or whose type is EXPENSE and that are not income by
    the previous rule, with amount debit sum minus credit sum; accounts under
    neither rule are left out, as are zero amounts.  The totals are the sums
    of the listed amounts, the net result is their difference and [is_profit]
    says whether it is non-negative.  When both rules match, income wins. *)
Theorem income_statement_rows (db : Ledger) (year : Z) :
  1 <= year <= 9999 ->
  let gs := accounts_between db (mk_date year 1 1) (mk_date year 12 31) in
  let total_income := sum_Z (map ar_amount (income_rows gs)) in
  let total_expense := sum_Z (map ar_amount (expense_rows gs)) in
  generate_income_statement db year =
    Some (mk_income_statement year (income_rows gs) (expense_rows gs)
            total_income total_expense (total_income - total_expense)
            (0 <=? total_income - total_expense))
  /\ (forall code ty, classify code ty = ClsIncome <->
                      code_startswith "6" code = true \/ ty = INCOME)
  /\ (forall code ty, classify code ty = ClsExpense <->
                      (code_startswith "7" code = true \/ ty = EXPENSE)
                      /\ ~ (code_startswith "6" code = true \/ ty = INCOME)).
Proof.
  intros Hy. cbv zeta.
  split; [|split; [exact classify_income | exact classify_expense]].
  unfold generate_income_statement, date_of. cbv zeta.
  assert (V1 : valid_date (mk_date year 1 1) = true).
  { unfold valid_date; simpl.
    replace (1 <=? year) with true by (symmetry; apply Z.leb_le; lia).
    replace (year <=? 9999) with true by (symmetry; apply Z.leb_le; lia).
    reflexivity. }
  assert (V2 : valid_date (mk_date year 12 31) = true).
  { unfold valid_date; simpl.
    replace (1 <=? year) with true by (symmetry; apply Z.leb_le; lia).
    replace (year <=? 9999) with true by (symmetry; apply Z.leb_le; lia).
    reflexivity. }
  rewrite V1, V2.
  rewrite income_loop, income_qs_totals. reflexivity.
Qed.

Lemma income_statement_rows_witness :
  generate_income_statement scenario 2026 =
  Some (mk_income_statement 2026
          [mk_amount_row "600" "Sales" 20000]
          [mk_amount_row "700" "Rent" 5000]
          20000 5000 15000 true).
Proof.
  exact (proj1 (income_statement_rows scenario 2026 ltac:(lia))).
Defined.

(** C7 (as stated) fails on precedence: account 700 "Rebates" has an
    expense-series code and type INCOME; the specification's rule makes it an
    expense, the statement lists it under incomes. *)
Lemma income_statement_prefix_precedence_fails :
  spec_classify "700" INCOME = ClsExpense
  /\ classify "700" INCOME = ClsIncome
  /\ generate_income_statement rebates 2026 =
     Some (mk_income_statement 2026
             [mk_amount_row "700" "Rebates" 3000] []
             3000 0 3000 true).
Proof. repeat split. Qed.

(** ** Sums by group *)

Section GroupSum.
Context {A K : Type} (key : A -> K) (test : K -> A -> bool).
Hypothesis test_spec : forall k a, test k a = true <-> key a = k.
Variable f : A -> Z.

Lemma sum_pick (c : Z) (g : K -> Z) (a : A) (ks : list K) :
  NoDup ks -> In (key a) ks ->
  sum_Z (map (fun k => if test k a then c + g k else g k) ks)
  = c + sum_Z (map g ks).
Proof.
  induction 1 as [|k ks Hk ND IH]; simpl; [contradiction|].
  intros [->|HIn].
  - replace (test (key a) a) with true by (symmetry; apply test_spec; reflexivity).
    assert (E : map (fun k => if test k a then c + g k else g k) ks = map g ks).
    { apply map_ext_in. intros k Hin.
      destruct (test k a) eqn:T; [|reflexivity].
      apply test_spec in T. subst k. contradiction. }
    rewrite E. lia.
  - destruct (test k a) eqn:T.
    + apply test_spec in T. subst k. contradiction.
    + rewrite (IH HIn). lia.
Qed.

Lemma sum_by_key (ks : list K) (l : list A) :
  NoDup ks -> (forall a, In a l -> In (key a) ks) ->
  sum_Z (map (fun k => sum_Z (map f (filter (test k) l))) ks) = sum_Z (map f l).
Proof.
  intros ND. induction l as [|a l IH]; intros Hks.
  - simpl. induction ks as [|k ks IHks]; simpl; [reflexivity|].
    rewrite IHks; [reflexivity | inversion ND; assumption | intros ? []].
  - change (sum_Z (map f (a :: l))) with (f a + sum_Z (map f l)).
    rewrite <- IH by (intros b Hb; apply Hks; right; exact Hb).
    rewrite <- (sum_pick (f a) (fun k => sum_Z (map f (filter (test k) l))) a ks ND)
      by (apply Hks; left; reflexivity).
    f_equal. apply map_ext. intro k. simpl.
    destruct (test k a); reflexivity.
Qed.
End GroupSum.

Lemma has_key_spec {K : Type} (dec : forall a b : K, {a = b} + {a <> b})
    (key : Joined -> K) (k : K) (r : Joined) :
  has_key dec key k r = true <-> key r = k.
Proof. unfold has_key. destruct (dec (key r) k); split; congruence. Qed.

(** The sums of an annotated query add up to the sums over its rows. *)
Lemma values_annotate_sums {K : Type} (dec : forall a b : K, {a = b} + {a <> b})
    (key : Joined -> K) (rows : list Joined) :
  sum_Z (map (fun g => or_zero (snd (fst g))) (values_annotate dec key rows))
    = sum_Z (map (fun r => jl_debit (j_line r)) rows)
  /\ sum_Z (map (fun g => or_zero (snd g)) (values_annotate dec key rows))
    = sum_Z (map (fun r => jl_credit (j_line r)) rows).
Proof.
  unfold values_annotate. rewrite !map_map. cbn [fst snd].
  split.
  - erewrite map_ext by (intro k; apply or_zero_Sum).
    apply (sum_by_key key (has_key dec key) (has_key_spec dec key)).
    + apply NoDup_nodup.
    + intros r Hr. apply nodup_In, in_map, Hr.
  - erewrite map_ext by (intro k; apply or_zero_Sum).
    apply (sum_by_key key (has_key dec key) (has_key_spec dec key)).
    + apply NoDup_nodup.
    + intros r Hr. apply nodup_In, in_map, Hr.
Qed.

(** The per-entry argument: a selection made of whole entries is balanced
    when each selected entry is. *)
Lemma whole_entries_balanced (q : Z -> bool) (rows : list JournalLine) :
  (forall i, q i = true ->
     sum_Z (map jl_debit (filter (fun l => jl_entry_id l =? i) rows))
     = sum_Z (map jl_credit (filter (fun l => jl_entry_id l =? i) rows))) ->
  sum_Z (map jl_debit (filter (fun l => q (jl_entry_id l)) rows))
  = sum_Z (map jl_credit (filter (fun l => q (jl_entry_id l)) rows)).
Proof.
  intro Hbal.
  set (sel := filter (fun l => q (jl_entry_id l)) rows).
  set (ks := nodup Z.eq_dec (map jl_entry_id sel)).
  assert (Hspec : forall k l, (jl_entry_id l =? k) = true <-> jl_entry_id l = k)
    by (intros; apply Z.eqb_eq).
  assert (Hks : forall l, In l sel -> In (jl_entry_id l) ks)
    by (intros l Hl; apply nodup_In, in_map, Hl).
  rewrite <- (sum_by_key jl_entry_id (fun k l => jl_entry_id l =? k) Hspec
                jl_debit ks sel (NoDup_nodup _ _) Hks).
  rewrite <- (sum_by_key jl_entry_id (fun k l => jl_entry_id l =? k) Hspec
                jl_credit ks sel (NoDup_nodup _ _) Hks).
  f_equal. apply map_ext_in. intros i Hi.
  apply nodup_In, in_map_iff in Hi as (l & <- & Hl).
  apply filter_In in Hl as [_ Hq].
  assert (E : filter (fun x => jl_entry_id x =? jl_entry_id l) sel
              = filter (fun x => jl_entry_id x =? jl_entry_id l) rows).
  { unfold sel. rewrite filter_filter. apply filter_ext. intro x.
    destruct (Z.eqb_spec (jl_entry_id x) (jl_entry_id l)) as [->|_];
      [rewrite Hq; reflexivity | apply andb_false_r]. }
  rewrite E. apply Hbal, Hq.
Qed.

(** ** The trial balance *)

Lemma mizan_loop (qs : list (string * string * option Z * option Z))
    (rows : list MizanRow) (total_debit total_credit : Z) :
  fold_left mizan_step qs (rows, total_debit, total_credit) =
  ((rows ++ map mizan_row qs)%list,
   total_debit + sum_Z (map (fun g => or_zero (snd (fst g))) qs),
   total_credit + sum_Z (map (fun g => or_zero (snd g)) qs)).
Proof.
  revert rows total_debit total_credit.
  induction qs as [|[[[code name] ds] cs] qs IH]; intros rows td tc.
  - simpl. rewrite app_nil_r, !Z.add_0_r. reflexivity.
  - cbn [fold_left]. unfold mizan_step at 2. rewrite IH.
    change (sum_Z (map ?h ((code, name, ds, cs) :: qs)))
      with (h (code, name, ds, cs) + sum_Z (map h qs)).
    cbn [map mizan_row fst snd]. rewrite <- app_assoc, !Z.add_assoc. reflexivity.
Qed.

Lemma mizan_totals (today : date) (req : Request) (db : Ledger) :
  mz_total_debit (mizan today req db)
    = sum_Z (map (fun r => jl_debit (j_line r)) (mizan_lines today req db))
  /\ mz_total_credit (mizan today req db)
    = sum_Z (map (fun r => jl_credit (j_line r)) (mizan_lines today req db)).
Proof.
  unfold mizan. rewrite mizan_loop. cbn [mz_total_debit mz_total_credit].
  unfold mizan_qs.
  set (key := fun r => (acc_code (j_account r), acc_name (j_account r))).
  set (rows := mizan_lines today req db).
  destruct (values_annotate_sums code_name_eq_dec key rows) as [Hd Hc].
  rewrite <- Hd, <- Hc. split.
  - rewrite Z.add_0_l. apply sum_Z_perm, Permutation_map, Permutation_sym, order_by_perm.
  - rewrite Z.add_0_l. apply sum_Z_perm, Permutation_map, Permutation_sym, order_by_perm.
Qed.

(** Whatever the request, the lines of [mizan] are the joined rows selected
    by a condition on their entry's date. *)
Lemma mizan_lines_selection (today : date) (req : Request) (db : Ledger) :
  exists sel : option date -> bool,
    mizan_lines today req db
    = filter (fun r => sel (je_date (j_entry r))) (select_related db).
Proof.
  unfold mizan_lines; cbv zeta.
  set (start_str := get_or _ _). set (end_str := get_or _ _).
  assert (All : select_related db
                = filter (fun r => (fun _ => true) (je_date (j_entry r)))
                    (select_related db)).
  { symmetry. apply forallb_filter_id. apply forallb_forall. reflexivity. }
  destruct (truthy start_str).
  - destruct (fromisoformat start_str) as [ds|].
    + destruct (truthy end_str).
      * destruct (fromisoformat end_str) as [de|].
        -- exists (fun d => on_date (date_leb ds) d && on_date (fun x => date_leb x de) d).
           rewrite filter_filter. reflexivity.
        -- exists (on_date (date_leb ds)). reflexivity.
      * exists (on_date (date_leb ds)). reflexivity.
    + exists (fun _ => true). exact All.
  - destruct (truthy end_str).
    + destruct (fromisoformat end_str) as [de|].
      * exists (on_date (fun x => date_leb x de)). reflexivity.
      * exists (fun _ => true). exact All.
    + exists (fun _ => true). exact All.
Qed.

Lemma account_of_found (db : Ledger) (l : JournalLine) :
  accounts_exist db -> In l (lines db) -> exists a, account_of db l = Some a.
Proof.
  intros FK Hl. destruct (FK l Hl) as (a & Ha & Hid).
  unfold account_of.
  destruct (find (fun a0 => acc_id a0 =? jl_account_id l) (accounts db)) eqn:E;
    [eauto|].
  apply (find_none _ _ E) in Ha. apply Z.eqb_neq in Ha. contradiction.
Qed.

Lemma select_related_lines (db : Ledger) (sel : option date -> bool) :
  accounts_exist db ->
  map j_line (filter (fun r => sel (je_date (j_entry r))) (select_related db))
  = filter (fun l => entry_id_sel db sel (jl_entry_id l)) (lines db).
Proof.
  intro FK. unfold select_related.
  assert (G : forall rows, (forall l, In l rows -> In l (lines db)) ->
    map j_line
      (filter (fun r => sel (je_date (j_entry r)))
         (flat_map (fun l => match entry_of db l, account_of db l with
                             | Some e, Some a => [mk_joined l e a]
                             | _, _ => []
                             end) rows))
    = filter (fun l => entry_id_sel db sel (jl_entry_id l)) rows).
  { induction rows as [|l rows IH]; intro Hsub; [reflexivity|].
    cbn [flat_map filter]. rewrite filter_app, map_app.
    rewrite IH by (intros x Hx; apply Hsub; right; exact Hx).
    destruct (account_of_found db l FK (Hsub l (or_introl eq_refl))) as [a ->].
    unfold entry_id_sel. unfold entry_of.
    destruct (find _ (entries db)) as [e|]; [|reflexivity].
    simpl. destruct (sel (je_date e)); reflexivity. }
  apply G. auto.
Qed.

(** C5. In a ledger whose entries are each balanced, the trial balance of
    any request (any start and end parameters, on any day) has equal grand
    totals of debit and of credit. *)
Theorem trial_balance_totals_agree (today : date) (req : Request) (db : Ledger) :
  accounts_exist db ->
  every_entry_balanced db ->
  mz_total_debit (mizan today req db) = mz_total_credit (mizan today req db).
Proof.
  intros FK Hbal.
  destruct (mizan_totals today req db) as [-> ->].
  destruct (mizan_lines_selection today req db) as [sel ->].
  rewrite <- (map_map j_line jl_debit), <- (map_map j_line jl_credit).
  rewrite (select_related_lines db sel FK).
  apply (whole_entries_balanced (entry_id_sel db sel)).
  intros i Hi. unfold entry_id_sel in Hi.
  destruct (find _ (entries db)) as [e|] eqn:E; [|discriminate].
  apply find_some in E as [He Hpk].
  specialize (Hbal e He). unfold total_debit, total_credit, lines_of in Hbal.
  destruct (je_pk e) as [k|]; [|discriminate].
  simpl in Hpk. apply Z.eqb_eq in Hpk. subst k. exact Hbal.
Qed.

Lemma every_entry_balanced_scenario : every_entry_balanced scenario.
Proof.
  intros e He. simpl in He.
  repeat (destruct He as [<-|He]; [reflexivity|]). contradiction.
Qed.

Lemma accounts_exist_check (db : Ledger) :
  forallb (fun l => existsb (fun a => acc_id a =? jl_account_id l) (accounts db))
          (lines db) = true ->
  accounts_exist db.
Proof.
  intros H l Hl. rewrite forallb_forall in H.
  apply H, existsb_exists in Hl as (a & Ha & Hid).
  exists a. split; [exact Ha | apply Z.eqb_eq, Hid].
Qed.

Lemma accounts_exist_scenario : accounts_exist scenario.
Proof. apply accounts_exist_check. reflexivity. Qed.

Lemma trial_balance_totals_agree_witness :
  mz_total_debit (mizan (mk_date 2026 6 15) no_params scenario)
  = mz_total_credit (mizan (mk_date 2026 6 15) no_params scenario).
Proof.
  apply (trial_balance_totals_agree (mk_date 2026 6 15) no_params scenario).
  - exact accounts_exist_scenario.
  - exact every_entry_balanced_scenario.
Defined.

(** ** The line_no backfill *)

Lemma next_counter_same (cur : option Z) (cnt : Z) (jl : JournalLine) :
  (if negb (opt_Z_eqb (Some (jl_entry_id jl)) cur)
   then (Some (jl_entry_id jl), 1)
   else (cur, cnt + 1))
  = (Some (jl_entry_id jl), next_counter cur cnt jl).
Proof.
  unfold next_counter.
  destruct cur as [c|]; simpl; [|reflexivity].
  destruct (Z.eqb_spec (jl_entry_id jl) c) as [->|_]; reflexivity.
Qed.

Lemma update_line_no_write (i n : Z) (rows : list JournalLine) :
  update_line_no i n rows = map (fun l => write_one l (i, n)) rows.
Proof. reflexivity. Qed.

Lemma forwards_loop_writes (todo : list JournalLine) (cur : option Z) (cnt : Z)
    (rows : list JournalLine) :
  table (fold_left forwards_step todo (mk_cursor cur cnt rows))
  = map (write_all (numbering cur cnt todo)) rows.
Proof.
  revert cur cnt rows. induction todo as [|jl todo IH]; intros cur cnt rows.
  - simpl. symmetry. apply map_id.
  - cbn [fold_left numbering]. unfold forwards_step at 2.
    cbn [current_entry counter table]. rewrite next_counter_same.
    rewrite IH, update_line_no_write, map_map. reflexivity.
Qed.

Lemma forwards_writes (rows : list JournalLine) :
  forwards rows
  = map (write_all (numbering None 0 (order_by by_entry_id_id rows))) rows.
Proof. apply forwards_loop_writes. Qed.

Lemma write_all_last (ws : list (Z * Z)) (l : JournalLine) :
  write_all ws l = match last_write ws (jl_id l) with
                   | Some c => set_line_no c l
                   | None => l
                   end.
Proof.
  unfold write_all. revert l. induction ws as [|w ws IH]; intro l; [reflexivity|].
  cbn [fold_left last_write]. rewrite IH. unfold write_one.
  destruct (jl_id l =? fst w).
  - change (jl_id (set_line_no (snd w) l)) with (jl_id l).
    destruct (last_write ws (jl_id l)); reflexivity.
  - destruct (last_write ws (jl_id l)); reflexivity.
Qed.

Lemma write_all_keys (ws : list (Z * Z)) (l : JournalLine) :
  jl_id (write_all ws l) = jl_id l /\ jl_entry_id (write_all ws l) = jl_entry_id l.
Proof. rewrite write_all_last. destruct (last_write ws (jl_id l)); split; reflexivity. Qed.

Lemma write_all_twice (ws : list (Z * Z)) (l : JournalLine) :
  write_all ws (write_all ws l) = write_all ws l.
Proof.
  rewrite (write_all_last ws (write_all ws l)).
  rewrite (proj1 (write_all_keys ws l)), write_all_last.
  destruct (last_write ws (jl_id l)); reflexivity.
Qed.

Lemma numbering_keys (g : JournalLine -> JournalLine) (cur : option Z) (cnt : Z)
    (todo : list JournalLine) :
  (forall l, jl_id (g l) = jl_id l /\ jl_entry_id (g l) = jl_entry_id l) ->
  numbering cur cnt (map g todo) = numbering cur cnt todo.
Proof.
  intro Hg. revert cur cnt. induction todo as [|jl todo IH]; intros cur cnt;
    [reflexivity|].
  cbn [map numbering]. unfold next_counter.
  destruct (Hg jl) as [-> ->]. rewrite IH. reflexivity.
Qed.

Lemma order_by_keys (g : JournalLine -> JournalLine) (rows : list JournalLine) :
  (forall l, jl_id (g l) = jl_id l /\ jl_entry_id (g l) = jl_entry_id l) ->
  order_by by_entry_id_id (map g rows) = map g (order_by by_entry_id_id rows).
Proof.
  intro Hg. apply order_by_map. intros a b. unfold by_entry_id_id.
  destruct (Hg a) as [-> ->], (Hg b) as [-> ->]. reflexivity.
Qed.

Lemma forwards_idempotent (rows : list JournalLine) :
  forwards (forwards rows) = forwards rows.
Proof.
  rewrite (forwards_writes (forwards rows)).
  rewrite (forwards_writes rows) at 1 2 3.
  set (ws := numbering None 0 (order_by by_entry_id_id rows)).
  rewrite (order_by_keys (write_all ws)) by apply write_all_keys.
  rewrite (numbering_keys (write_all ws)) by apply write_all_keys.
  fold ws. rewrite map_map. apply map_ext. apply write_all_twice.
Qed.

Lemma numbering_ids (cur : option Z) (cnt : Z) (todo : list JournalLine) :
  map fst (numbering cur cnt todo) = map jl_id todo.
Proof.
  revert cur cnt. induction todo as [|jl todo IH]; intros cur cnt; [reflexivity|].
  cbn [numbering map fst]. rewrite IH. reflexivity.
Qed.

Lemma last_write_none (ws : list (Z * Z)) (i : Z) :
  ~ In i (map fst ws) -> last_write ws i = None.
Proof.
  induction ws as [|w ws IH]; intro H; [reflexivity|].
  cbn [last_write]. rewrite IH by (intro; apply H; right; assumption).
  destruct (Z.eqb_spec i (fst w)) as [->|_]; [|reflexivity].
  exfalso. apply H. left. reflexivity.
Qed.

(** With distinct identities each row receives exactly the write issued at
    its own turn of the loop. *)
Lemma writes_on_todo (todo : list JournalLine) (cur : option Z) (cnt : Z) :
  NoDup (map jl_id todo) ->
  map (write_all (numbering cur cnt todo)) todo = renumber cur cnt todo.
Proof.
  revert cur cnt. induction todo as [|jl todo IH]; intros cur cnt ND; [reflexivity|].
  inversion ND as [|i ids Hnotin ND' E]; subst.
  cbn [numbering renumber map]. f_equal.
  - unfold write_all. cbn [fold_left]. unfold write_one at 2. cbn [fst snd].
    rewrite Z.eqb_refl. fold (write_all (numbering (Some (jl_entry_id jl))
                                (next_counter cur cnt jl) todo)
                                (set_line_no (next_counter cur cnt jl) jl)).
    rewrite write_all_last.
    change (jl_id (set_line_no (next_counter cur cnt jl) jl)) with (jl_id jl).
    rewrite last_write_none; [reflexivity|].
    rewrite numbering_ids. exact Hnotin.
  - rewrite <- (IH (Some (jl_entry_id jl)) (next_counter cur cnt jl) ND').
    apply map_ext_in. intros l Hl.
    unfold write_all. cbn [fold_left]. unfold write_one at 2. cbn [fst].
    destruct (Z.eqb_spec (jl_id l) (jl_id jl)) as [E|_]; [|reflexivity].
    exfalso. apply Hnotin. rewrite <- E. apply in_map, Hl.
Qed.

Lemma by_entry_id_id_le (a b : JournalLine) :
  by_entry_id_id a b = true -> le_entry_id a b.
Proof.
  unfold by_entry_id_id, le_entry_id.
  rewrite orb_true_iff, andb_true_iff, Z.ltb_lt, Z.eqb_eq. lia.
Qed.

Lemma by_entry_id_id_ge (a b : JournalLine) :
  by_entry_id_id a b = false -> le_entry_id b a.
Proof.
  unfold by_entry_id_id, le_entry_id.
  rewrite orb_false_iff, Z.ltb_ge. lia.
Qed.

Lemma insert_by_sorted (x : JournalLine) (l : list JournalLine) :
  StronglySorted le_entry_id l ->
  StronglySorted le_entry_id (insert_by by_entry_id_id x l).
Proof.
  induction 1 as [|y l Hs IH Hy]; simpl.
  - repeat constructor.
  - destruct (by_entry_id_id x y) eqn:E.
    + apply by_entry_id_id_le in E.
      constructor; [constructor; assumption|].
      constructor; [exact E|].
      eapply Forall_impl; [|exact Hy]. unfold le_entry_id in *. intros; lia.
    + apply by_entry_id_id_ge in E.
      constructor; [exact IH|].
      apply (Permutation_Forall (insert_by_perm by_entry_id_id x l)).
      constructor; assumption.
Qed.

Lemma order_by_sorted (rows : list JournalLine) :
  StronglySorted le_entry_id (order_by by_entry_id_id rows).
Proof.
  induction rows as [|x rows IH]; simpl; [constructor | apply insert_by_sorted, IH].
Qed.

Lemma filter_length_perm {A : Type} (p : A -> bool) (l l' : list A) :
  Permutation l l' -> List.length (filter p l) = List.length (filter p l').
Proof.
  induction 1 as [|x l l' _ IH|x y l|l l' l'' _ IH1 _ IH2]; simpl.
  - reflexivity.
  - destruct (p x); simpl; congruence.
  - destruct (p x), (p y); reflexivity.
  - congruence.
Qed.

Lemma of_entry_spec (e : Z) (l : JournalLine) :
  reflect (jl_entry_id l = e) (of_entry e l).
Proof. apply Z.eqb_spec. Qed.

Lemma renumber_none_of (e : Z) (todo : list JournalLine) (cur : option Z) (cnt : Z) :
  Forall (fun l => jl_entry_id l <> e) todo ->
  filter (of_entry e) (renumber cur cnt todo) = [] /\ filter (of_entry e) todo = [].
Proof.
  intro H. revert cur cnt. induction H as [|jl todo Hjl _ IH]; intros cur cnt;
    [split; reflexivity|].
  cbn [renumber filter].
  change (of_entry e (set_line_no (next_counter cur cnt jl) jl)) with (of_entry e jl).
  destruct (of_entry_spec e jl) as [E|_]; [contradiction|].
  apply IH.
Qed.

Lemma seq_from (c : Z) (n : nat) :
  map (fun k => c + 1 + Z.of_nat k) (seq 1 n) = map (fun k => c + Z.of_nat k) (seq 2 n).
Proof.
  rewrite <- (seq_shift n 1), map_map. apply map_ext. intro k. lia.
Qed.

(** Inside the group of entry [e]: the counter goes on from [cnt]. *)
Lemma renumber_in_group (e : Z) (todo : list JournalLine) (cnt : Z) :
  StronglySorted le_entry_id todo ->
  Forall (fun l => e <= jl_entry_id l) todo ->
  map jl_line_no (filter (of_entry e) (renumber (Some e) cnt todo))
  = map (fun k => cnt + Z.of_nat k) (seq 1 (List.length (filter (of_entry e) todo))).
Proof.
  intro Hs. revert cnt. induction Hs as [|jl todo Hs IH Hjl]; intros cnt Hge;
    [reflexivity|].
  inversion Hge as [|? ? Hge1 Hge']; subst.
  cbn [renumber filter].
  change (of_entry e (set_line_no (next_counter (Some e) cnt jl) jl))
    with (of_entry e jl).
  destruct (of_entry_spec e jl) as [E|NE].
  - unfold next_counter. rewrite E. simpl opt_Z_eqb. rewrite Z.eqb_refl.
    cbn [negb map jl_line_no set_line_no List.length seq].
    rewrite (IH (cnt + 1) Hge'), seq_from. reflexivity.
  - assert (Hnone : Forall (fun l => jl_entry_id l <> e) todo).
    { rewrite Forall_forall in *. intros l Hl.
      specialize (Hjl l Hl). unfold le_entry_id in Hjl. lia. }
    destruct (renumber_none_of e todo (Some (jl_entry_id jl))
                (next_counter (Some e) cnt jl) Hnone) as [-> ->].
    reflexivity.
Qed.

(** Coming from another entry (or from the start): the counter restarts. *)
Lemma renumber_group (e : Z) (todo : list JournalLine) (cur : option Z) (cnt : Z) :
  cur <> Some e ->
  StronglySorted le_entry_id todo ->
  map jl_line_no (filter (of_entry e) (renumber cur cnt todo))
  = one_to (List.length (filter (of_entry e) todo)).
Proof.
  intros Hcur Hs. revert cur cnt Hcur.
  induction Hs as [|jl todo Hs IH Hjl]; intros cur cnt Hcur; [reflexivity|].
  cbn [renumber filter].
  change (of_entry e (set_line_no (next_counter cur cnt jl) jl))
    with (of_entry e jl).
  destruct (of_entry_spec e jl) as [E|NE].
  - assert (Hone : next_counter cur cnt jl = 1).
    { unfold next_counter. rewrite E.
      destruct cur as [c|]; simpl; [|reflexivity].
      destruct (Z.eqb_spec e c) as [->|_]; [congruence | reflexivity]. }
    rewrite Hone, E. cbn [map jl_line_no set_line_no List.length].
    rewrite renumber_in_group.
    + unfold one_to. cbn [seq map]. f_equal.
      rewrite <- (seq_shift _ 1), map_map. apply map_ext. intro k. lia.
    + exact Hs.
    + eapply Forall_impl; [|exact Hjl]. unfold le_entry_id. intros; lia.
  - apply IH. congruence.
Qed.

Lemma forwards_sorted_rows (rows : list JournalLine) :
  NoDup (map jl_id rows) ->
  order_by by_entry_id_id (forwards rows)
  = renumber None 0 (order_by by_entry_id_id rows).
Proof.
  intro ND. rewrite forwards_writes.
  rewrite order_by_keys by apply write_all_keys.
  apply writes_on_todo.
  apply (Permutation_NoDup (Permutation_map jl_id (order_by_perm by_entry_id_id rows))).
  exact ND.
Qed.

(** C8. After the backfill, the lines of every entry, taken in identity
    order, carry the numbers 1, 2, ..., N, where N is the entry's number of
    lines: no gap and no duplicate.  Running the backfill again changes
    nothing. *)
Theorem backfill_numbers_lines (rows : list JournalLine) :
  NoDup (map jl_id rows) ->
  (forall e, map jl_line_no (entry_lines e (forwards rows))
             = one_to (List.length (filter (fun l => jl_entry_id l =? e) rows)))
  /\ forwards (forwards rows) = forwards rows.
Proof.
  intro ND. split; [|apply forwards_idempotent].
  intro e. unfold entry_lines. rewrite (forwards_sorted_rows rows ND).
  change (fun l => jl_entry_id l =? e) with (of_entry e).
  rewrite renumber_group; [|discriminate | apply order_by_sorted].
  f_equal. apply filter_length_perm, Permutation_sym, order_by_perm.
Qed.

Lemma backfill_numbers_lines_witness :
  map jl_line_no (entry_lines 3 (forwards backlog)) = [1; 2]
  /\ forwards (forwards backlog) = forwards backlog.
Proof.
  assert (ND : NoDup (map jl_id backlog)).
  { simpl. repeat constructor; simpl; intuition discriminate. }
  split.
  - exact (proj1 (backfill_numbers_lines backlog ND) 3).
  - exact (proj2 (backfill_numbers_lines backlog ND)).
Defined.

Example backfill_backlog :
  map (fun l => (jl_id l, jl_entry_id l, jl_line_no l)) (forwards backlog)
  = [(6, 3, 2); (2, 1, 2); (5, 3, 1); (1, 1, 1); (4, 2, 2); (3, 2, 1)].
Proof. reflexivity. Qed.

(** ** Dates as text *)

Lemma digit_of_char (n : Z) : digit_of (digit_char n) = Some (n mod 10).
Proof.
  unfold digit_char.
  assert (H : 0 <= n mod 10 < 10) by (apply Z.mod_pos_bound; lia).
  assert (C : n mod 10 = 0 \/ n mod 10 = 1 \/ n mod 10 = 2 \/ n mod 10 = 3
              \/ n mod 10 = 4 \/ n mod 10 = 5 \/ n mod 10 = 6 \/ n mod 10 = 7
              \/ n mod 10 = 8 \/ n mod 10 = 9) by lia.
  repeat (destruct C as [->|C]; [reflexivity|]). rewrite C. reflexivity.
Qed.

Lemma number2_digits (n : Z) :
  number2 (digit_char (n / 10)) (digit_char n)
  = Some (10 * ((n / 10) mod 10) + n mod 10).
Proof. unfold number2. rewrite !digit_of_char. reflexivity. Qed.

Lemma two_digits_value (n : Z) :
  0 <= n < 100 -> 10 * ((n / 10) mod 10) + n mod 10 = n.
Proof. intro H. Z.div_mod_to_equations. lia. Qed.

Lemma four_digits_value (y : Z) :
  0 <= y < 10000 ->
  100 * (10 * ((y / 100 / 10) mod 10) + (y / 100) mod 10)
  + (10 * ((y / 10) mod 10) + y mod 10) = y.
Proof. intro H. Z.div_mod_to_equations. lia. Qed.

Lemma valid_date_bounds (d : date) :
  valid_date d = true ->
  1 <= d_year d <= 9999 /\ 1 <= d_month d <= 12 /\ 1 <= d_day d <= 31.
Proof.
  unfold valid_date. rewrite !andb_true_iff, !Z.leb_le.
  intros [[[[[? ?] ?] ?] ?] Hd].
  assert (days_in_month (d_year d) (d_month d) <= 31).
  { unfold days_in_month.
    destruct (d_month d =? 2); [destruct (is_leap _); lia|].
    destruct (_ || _); lia. }
  lia.
Qed.

(** Reading back what [isoformat] wrote. *)
Lemma fromisoformat_isoformat (d : date) :
  valid_date d = true -> fromisoformat (isoformat d) = Some d.
Proof.
  intro V. destruct (valid_date_bounds d V) as (Hy & Hm & Hd).
  unfold isoformat, two_digits, fromisoformat.
  change (Ascii.eqb "-" "-") with true. cbn [andb].
  rewrite !number2_digits.
  rewrite four_digits_value by lia.
  rewrite !two_digits_value by lia.
  unfold date_of. destruct d as [y m dd]; cbn [d_year d_month d_day] in *.
  rewrite V. reflexivity.
Qed.

Lemma first_day_valid (today : date) :
  valid_date today = true -> valid_date (first_day_of today) = true.
Proof.
  unfold valid_date, first_day_of; cbn [d_year d_month d_day].
  rewrite !andb_true_iff, !Z.leb_le. intros [[[[[? ?] ?] ?] ?] ?].
  repeat split; try assumption; try lia.
Qed.

Lemma isoformat_truthy (d : date) : truthy (isoformat d) = true.
Proof. reflexivity. Qed.

(** ** The window of the trial balance *)



(** The whole ledger of the scenario holds 6 lines and 1250.00 of debit. *)
Example scenario_whole_ledger :
  List.length (select_related scenario) = 6%nat
  /\ sum_Z (map (fun r => jl_debit (j_line r)) (select_related scenario)) = 125000.
Proof. split; reflexivity. Qed.

(** ** Unreadable bounds *)

(** An unreadable start leaves the [try] block before the end is read: no
    bound at all is applied. *)
Lemma mizan_bad_start (today : date) (s : string) (e : option string) (db : Ledger) :
  truthy s = true -> fromisoformat s = None ->
  mizan_lines today (mk_request (Some s) e) db = select_related db.
Proof.
  intros Ht Hs. unfold mizan_lines, get_or; cbn [GET_start GET_end].
  rewrite Ht; cbn iota. rewrite Ht, Hs. reflexivity.
Qed.


(** The journal list reads each bound on its own: an unreadable start does
    not disable a readable end. *)
Lemma get_queryset_bad_start (parse_date : string -> Parsed) (s e : string)
    (d : date) (db : Ledger) :
  truthy s = true -> parse_date s = ParsedNone ->
  truthy e = true -> parse_date e = ParsedDate d ->
  get_queryset parse_date (mk_request (Some s) (Some e)) db
  = Some (filter (fun x => match je_date x with
                           | Some y => date_leb y d
                           | None => false
                           end)
            (order_by by_date_desc_id_desc (entries db))).
Proof.
  intros Hts Hs Hte He. unfold get_queryset, parse_param; cbn [GET_start GET_end].
  rewrite Hts, Hs, Hte, He. reflexivity.
Qed.

(** The journal list fails when [parse_date] raises. *)
Lemma get_queryset_raises (parse_date : string -> Parsed) (s : string)
    (e : option string) (db : Ledger) :
  truthy s = true -> parse_date s = ParsedValueError ->
  get_queryset parse_date (mk_request (Some s) e) db = None.
Proof.
  intros Hts Hs. unfold get_queryset, parse_param; cbn [GET_start GET_end].
  rewrite Hts, Hs. reflexivity.
Qed.

(** C9 at the failing request: start "not-a-date", end "2026-03-31".  The
    report is produced, but over all six lines of the scenario; the end bound
    alone selects the two lines of the March entry. *)
Theorem mizan_bad_start_drops_end_bound :
  fromisoformat "not-a-date" = None
  /\ fromisoformat "2026-03-31" = Some (mk_date 2026 3 31)
  /\ mizan_lines mid_june bad_start_good_end scenario = select_related scenario
  /\ mz_lines_count (mizan mid_june bad_start_good_end scenario) = 6
  /\ mz_total_debit (mizan mid_june bad_start_good_end scenario) = 125000
  /\ List.length (filter (entry__date__lte (mk_date 2026 3 31))
                    (select_related scenario)) = 2%nat
  /\ mz_lines_count (mizan mid_june good_start_bad_end scenario) = 4.
Proof. repeat split. Qed.

(** ** What validation accepts *)


(** ** More on the backfill *)

Lemma write_all_data (ws : list (Z * Z)) (l : JournalLine) :
  line_data (write_all ws l) = line_data l.
Proof. rewrite write_all_last. destruct (last_write ws (jl_id l)); reflexivity. Qed.

(** X2. The backfill writes nothing but [line_no]: the table keeps its rows,
    their order and every other field. *)
Theorem forwards_only_line_no (rows : list JournalLine) :
  map line_data (forwards rows) = map line_data rows.
Proof.
  rewrite forwards_writes, map_map. apply map_ext. intro l. apply write_all_data.
Qed.

Lemma lines_of_writes (g : JournalLine -> JournalLine) (f : JournalLine -> Z)
    (pk : option Z) (rows : list JournalLine) :
  (forall l, jl_entry_id (g l) = jl_entry_id l /\ f (g l) = f l) ->
  map f (filter (fun l => opt_Z_eqb (Some (jl_entry_id l)) pk) (map g rows))
  = map f (filter (fun l => opt_Z_eqb (Some (jl_entry_id l)) pk) rows).
Proof.
  intro Hg. induction rows as [|l rows IH]; [reflexivity|].
  cbn [map filter]. destruct (Hg l) as [He Hf]. rewrite He.
  destruct (opt_Z_eqb (Some (jl_entry_id l)) pk); cbn [map]; rewrite IH;
    [rewrite Hf|]; reflexivity.
Qed.

Lemma backfilled_totals (db : Ledger) (e : JournalEntry) :
  total_debit (backfilled db) e = total_debit db e
  /\ total_credit (backfilled db) e = total_credit db e.
Proof.
  unfold total_debit, total_credit, lines_of, backfilled; cbn [lines].
  rewrite forwards_writes.
  set (ws := numbering None 0 (order_by by_entry_id_id (lines db))).
  split; f_equal; apply lines_of_writes; intro l;
    pose proof (write_all_data ws l) as H; unfold line_data in H;
    injection H as _ H2 _ H4 H5; auto.
Qed.

(** X3. The backfill changes no entry's totals and no outcome of [clean]. *)
Theorem backfill_keeps_validation (db : Ledger) (e : JournalEntry) :
  total_debit (backfilled db) e = total_debit db e
  /\ total_credit (backfilled db) e = total_credit db e
  /\ clean (backfilled db) e = clean db e.
Proof.
  destruct (backfilled_totals db e) as [Hd Hc].
  repeat split; try assumption.
  unfold clean. rewrite Hd, Hc. reflexivity.
Qed.

(** Two tables that differ at most in [line_no] and agree on the numbers of
    every entry are equal. *)
Lemma same_numbers (g : JournalLine -> JournalLine) (rows : list JournalLine) :
  (forall l, line_data (g l) = line_data l) ->
  (forall e, map jl_line_no (filter (of_entry e) (map g rows))
             = map jl_line_no (filter (of_entry e) rows)) ->
  map g rows = rows.
Proof.
  intro Hg. induction rows as [|l rows IH]; intro H; [reflexivity|].
  assert (Hid : jl_entry_id (g l) = jl_entry_id l).
  { pose proof (Hg l) as E. unfold line_data in E. injection E; auto. }
  assert (Hof : forall e, of_entry e (g l) = of_entry e l)
    by (intro e; unfold of_entry; rewrite Hid; reflexivity).
  cbn [map]. f_equal.
  - specialize (H (jl_entry_id l)). cbn [map filter] in H. rewrite Hof in H.
    replace (of_entry (jl_entry_id l) l) with true in H
      by (symmetry; apply Z.eqb_refl).
    cbn [map] in H. injection H as Hno _.
    pose proof (Hg l) as E. unfold line_data in E.
    destruct (g l), l; cbn in *. injection E as -> -> -> -> ->. congruence.
  - apply IH. intro e. specialize (H e). cbn [map filter] in H. rewrite Hof in H.
    destruct (of_entry e l); [|exact H].
    cbn [map] in H. injection H as _ H. exact H.
Qed.

(** X4. A table whose entries are already numbered 1..N in identity order is
    left as it is. *)
Theorem forwards_numbered_unchanged (rows : list JournalLine) :
  NoDup (map jl_id rows) ->
  (forall e, map jl_line_no (entry_lines e rows)
             = one_to (List.length (filter (fun l => jl_entry_id l =? e) rows))) ->
  forwards rows = rows.
Proof.
  intros ND Hnum.
  set (ws := numbering None 0 (order_by by_entry_id_id rows)).
  assert (Hw : map (write_all ws) (order_by by_entry_id_id rows)
               = renumber None 0 (order_by by_entry_id_id rows)).
  { apply writes_on_todo.
    apply (Permutation_NoDup (Permutation_map jl_id (order_by_perm by_entry_id_id rows))).
    exact ND. }
  assert (Hs : map (write_all ws) (order_by by_entry_id_id rows)
               = order_by by_entry_id_id rows).
  { apply same_numbers; [apply write_all_data|].
    intro e. rewrite Hw.
    rewrite renumber_group; [|discriminate | apply order_by_sorted].
    specialize (Hnum e). unfold entry_lines in Hnum.
    change (fun l => jl_entry_id l =? e) with (of_entry e) in Hnum.
    rewrite Hnum. f_equal.
    apply filter_length_perm, Permutation_sym, order_by_perm. }
  rewrite forwards_writes. fold ws.
  rewrite <- (map_id rows) at 2. apply map_ext_in. intros l Hl.
  assert (HIn : In l (order_by by_entry_id_id rows))
    by (apply (Permutation_in l (order_by_perm by_entry_id_id rows)), Hl).
  clearbody ws. clear - Hs HIn.
  induction (order_by by_entry_id_id rows) as [|x s IH]; [contradiction|].
  cbn [map] in Hs. injection Hs as Hx Hs'.
  destruct HIn as [->|HIn]; [exact Hx | exact (IH Hs' HIn)].
Qed.

Lemma forwards_numbered_unchanged_witness :
  forwards (lines scenario) = lines scenario.
Proof.
  apply (forwards_numbered_unchanged (lines scenario)).
  - simpl. repeat constructor; simpl; intuition discriminate.
  - intro e. unfold entry_lines.
    let s := eval vm_compute in (order_by by_entry_id_id (lines scenario)) in
    change (order_by by_entry_id_id (lines scenario)) with s.
    cbn [scenario lines filter jl_entry_id].
    destruct (Z.eqb_spec 1 e) as [<-|H1]; [reflexivity|].
    destruct (Z.eqb_spec 2 e) as [<-|H2]; [reflexivity|].
    destruct (Z.eqb_spec 3 e) as [<-|H3]; reflexivity.
Defined.

(** ** The journal list *)

Lemma order_by_In {A : Type} (leb : A -> A -> bool) (l : list A) (x : A) :
  In x (order_by leb l) <-> In x l.
Proof.
  split; apply Permutation_in;
    [apply Permutation_sym|]; apply order_by_perm.
Qed.

(** X5. [get_queryset] fails only when [parse_date] raises on a parameter
    that is present and not empty; otherwise it returns exactly the stored
    entries whose date lies within the bounds that were read (a bound that is
    absent, empty or not well formatted is no bound). *)
Theorem get_queryset_selects (parse_date : string -> Parsed) (req : Request)
    (db : Ledger) :
  let start := parse_param parse_date (GET_start req) in
  let end_ := parse_param parse_date (GET_end req) in
  (get_queryset parse_date req db = None <->
   start = ParsedValueError \/ end_ = ParsedValueError)
  /\ (forall qs, get_queryset parse_date req db = Some qs ->
      forall e, In e qs <->
                In e (entries db) /\ after_bound start e /\ before_bound end_ e).
Proof.
  cbv zeta. unfold get_queryset, after_bound, before_bound.
  destruct (parse_param parse_date (GET_start req)) as [ds| |];
    destruct (parse_param parse_date (GET_end req)) as [de| |];
    (split;
     [ split; [ try discriminate; auto
              | intros [H|H]; try discriminate; reflexivity ]
     | intros qs Hqs; try discriminate; injection Hqs as <-; intro e;
       rewrite ?filter_In, order_by_In ]).
  - split.
    + intros [[Hin Hs] He].
      destruct (je_date e) as [x|]; [|discriminate].
      repeat split; auto; intros d [= <-]; eauto.
    + intros (Hin & Hs & He).
      destruct (Hs ds eq_refl) as (x & Hx & Hle).
      destruct (He de eq_refl) as (y & Hy & Hle').
      rewrite Hx in *. injection Hy as <-. auto.
  - split.
    + intros [Hin Hs].
      destruct (je_date e) as [x|]; [|discriminate].
      repeat split; auto; [intros d [= <-]; eauto | discriminate].
    + intros (Hin & Hs & _).
      destruct (Hs ds eq_refl) as (x & Hx & Hle). rewrite Hx. auto.
  - split.
    + intros [Hin He].
      destruct (je_date e) as [x|]; [|discriminate].
      repeat split; auto; [discriminate | intros d [= <-]; eauto].
    + intros (Hin & _ & He).
      destruct (He de eq_refl) as (x & Hx & Hle). rewrite Hx. auto.
  - split; [intro Hin; repeat split; auto; discriminate | intros (Hin & _); exact Hin].
Qed.

(** *** Order of the list *)

Lemma date_leb_iff (a b : date) :
  date_leb a b = true <->
  d_year a < d_year b
  \/ (d_year a = d_year b
      /\ (d_month a < d_month b \/ (d_month a = d_month b /\ d_day a <= d_day b))).
Proof.
  unfold date_leb.
  rewrite !orb_true_iff, !andb_true_iff, !orb_true_iff, !andb_true_iff,
    !Z.ltb_lt, !Z.eqb_eq, Z.leb_le.
  reflexivity.
Qed.

Lemma date_leb_trans (a b c : date) :
  date_leb a b = true -> date_leb b c = true -> date_leb a c = true.
Proof. rewrite !date_leb_iff. lia. Qed.

Lemma date_leb_total (a b : date) :
  date_leb a b = false -> date_leb b a = true.
Proof.
  intro H. apply date_leb_iff.
  assert (N : ~ (date_leb a b = true)) by congruence.
  rewrite date_leb_iff in N. lia.
Qed.

Lemma date_eqb_leb (a b : date) : date_eqb a b = true -> date_leb b a = true.
Proof.
  unfold date_eqb. rewrite !andb_true_iff, !Z.eqb_eq, date_leb_iff. lia.
Qed.

Lemma opt_date_le_trans (a b c : option date) :
  opt_date_le a b -> opt_date_le b c -> opt_date_le a c.
Proof.
  destruct a as [x|], b as [y|], c as [z|]; simpl; try tauto.
  apply date_leb_trans.
Qed.

Lemma by_date_desc_true (a b : JournalEntry) :
  by_date_desc_id_desc a b = true -> dated_no_later a b.
Proof.
  unfold by_date_desc_id_desc, dated_no_later, opt_date_ltb, opt_date_eqb, opt_date_le.
  destruct (je_date a) as [x|], (je_date b) as [y|]; simpl; try tauto; try discriminate.
  rewrite orb_true_iff, andb_true_iff, negb_true_iff.
  intros [H|[H _]]; [apply date_leb_total, H | apply date_eqb_leb, H].
Qed.

Lemma by_date_desc_false (a b : JournalEntry) :
  by_date_desc_id_desc a b = false -> dated_no_later b a.
Proof.
  unfold by_date_desc_id_desc, dated_no_later, opt_date_ltb, opt_date_eqb, opt_date_le.
  destruct (je_date a) as [x|], (je_date b) as [y|]; simpl; try tauto; try discriminate.
  rewrite orb_false_iff, negb_false_iff. tauto.
Qed.

Section SortedBy.
Context {A : Type} (leb : A -> A -> bool) (R : A -> A -> Prop).
Hypothesis leb_true : forall a b, leb a b = true -> R a b.
Hypothesis leb_false : forall a b, leb a b = false -> R b a.
Hypothesis R_trans : forall a b c, R a b -> R b c -> R a c.

Lemma insert_by_sorted_by (x : A) (l : list A) :
  StronglySorted R l -> StronglySorted R (insert_by leb x l).
Proof.
  induction 1 as [|y l Hs IH Hy]; simpl.
  - repeat constructor.
  - destruct (leb x y) eqn:E.
    + constructor; [constructor; assumption|].
      constructor; [apply leb_true, E|].
      eapply Forall_impl; [|exact Hy]. intros z Hz.
      apply (R_trans x y z); [apply leb_true, E | exact Hz].
    + constructor; [exact IH|].
      apply (Permutation_Forall (insert_by_perm leb x l)).
      constructor; [apply leb_false, E | exact Hy].
Qed.

Lemma order_by_sorted_by (l : list A) : StronglySorted R (order_by leb l).
Proof.
  induction l as [|x l IH]; simpl; [constructor | apply insert_by_sorted_by, IH].
Qed.
End SortedBy.

Lemma StronglySorted_filter {A : Type} (R : A -> A -> Prop) (p : A -> bool)
    (l : list A) :
  StronglySorted R l -> StronglySorted R (filter p l).
Proof.
  induction 1 as [|x l Hs IH Hx]; simpl; [constructor|].
  destruct (p x); [|exact IH].
  constructor; [exact IH | apply Forall_filter, Hx].
Qed.

(** X6. The journal list comes newest first: no entry is followed by one
    with a later date. *)
Theorem get_queryset_newest_first (parse_date : string -> Parsed) (req : Request)
    (db : Ledger) (qs : list JournalEntry) :
  get_queryset parse_date req db = Some qs -> StronglySorted dated_no_later qs.
Proof.
  assert (S : StronglySorted dated_no_later
                (order_by by_date_desc_id_desc (entries db))).
  { apply order_by_sorted_by.
    - exact by_date_desc_true.
    - exact by_date_desc_false.
    - intros a b c Hab Hbc. unfold dated_no_later in *.
      exact (opt_date_le_trans _ _ _ Hbc Hab). }
  unfold get_queryset.
  destruct (parse_param parse_date (GET_start req));
    destruct (parse_param parse_date (GET_end req));
    intro H; try discriminate; injection H as <-;
    repeat apply StronglySorted_filter; exact S.
Qed.

Lemma get_queryset_newest_first_witness :
  StronglySorted dated_no_later
    [ mk_entry (Some 3) (Some (mk_date 2026 6 2)) "rent paid" POSTED;
      mk_entry (Some 2) (Some (mk_date 2026 6 1)) "sale" POSTED;
      mk_entry (Some 1) (Some (mk_date 2026 3 1)) "capital injection" POSTED ].
Proof.
  apply (get_queryset_newest_first lenient_parse_date no_params scenario).
  reflexivity.
Defined.

(** *** Totals of the page *)

Lemma get_queryset_subset (parse_date : string -> Parsed) (req : Request)
    (db : Ledger) (qs : list JournalEntry) :
  get_queryset parse_date req db = Some qs ->
  forall e, In e qs -> In e (entries db).
Proof.
  unfold get_queryset.
  destruct (parse_param parse_date (GET_start req));
    destruct (parse_param parse_date (GET_end req));
    intro H; try discriminate; injection H as <-; intros e He;
    repeat (apply filter_In in He; destruct He as [He _]);
    apply (order_by_In by_date_desc_id_desc), He.
Qed.

Lemma context_loop (db : Ledger) (es : list JournalEntry) (sd sc : Z) :
  fold_left (context_step db) es (sd, sc)
  = (sd + sum_Z (map (total_debit db) es), sc + sum_Z (map (total_credit db) es)).
Proof.
  revert sd sc. induction es as [|e es IH]; intros sd sc; simpl.
  - rewrite !Z.add_0_r. reflexivity.
  - unfold context_step at 2. cbn [fst snd]. rewrite IH.
    f_equal; lia.
Qed.

(** X7. On every journal page [entries_count] is the number of listed
    entries and the two sums are the listed entries' debit and credit totals,
    balanced or not; in a ledger whose entries are balanced the two sums are
    equal. *)
Theorem journal_page_totals (parse_date : string -> Parsed) (req : Request)
    (db : Ledger) (c : JournalContext) :
  get_context_data parse_date req db = Some c ->
  get_queryset parse_date req db = Some (jc_entries c)
  /\ jc_entries_count c = Z.of_nat (List.length (jc_entries c))
  /\ jc_sum_debit c = sum_Z (map (total_debit db) (jc_entries c))
  /\ jc_sum_credit c = sum_Z (map (total_credit db) (jc_entries c))
  /\ (every_entry_balanced db -> jc_sum_debit c = jc_sum_credit c).
Proof.
  unfold get_context_data.
  destruct (get_queryset parse_date req db) as [qs|] eqn:Hq; [|discriminate].
  rewrite context_loop. intros [= <-]. cbn.
  repeat split.
  intro Hbal. f_equal. apply map_ext_in. intros e He. apply Hbal.
  exact (get_queryset_subset parse_date req db qs Hq e He).
Qed.

Lemma journal_page_totals_witness :
  (exists c, get_context_data lenient_parse_date no_params scenario = Some c
             /\ jc_entries_count c = 3
             /\ jc_sum_debit c = jc_sum_credit c)
  /\ (exists c, get_context_data lenient_parse_date no_params lopsided = Some c
              /\ jc_entries_count c = 1
              /\ jc_sum_debit c = 10000 /\ jc_sum_credit c = 0).
Proof.
  split.
  - eexists. split; [reflexivity|]. split; [reflexivity|].
    exact (proj2 (proj2 (proj2 (proj2
      (journal_page_totals lenient_parse_date no_params scenario _ eq_refl))))
      every_entry_balanced_scenario).
  - eexists. split; [reflexivity|].
    destruct (journal_page_totals lenient_parse_date no_params lopsided _ eq_refl)
      as (_ & Hn & Hd & Hc & _).
    rewrite Hn, Hd, Hc. repeat split.
Defined.

Lemma get_queryset_selects_witness :
  In (mk_entry (Some 1) (Some (mk_date 2026 3 1)) "capital injection" POSTED)
     [ mk_entry (Some 1) (Some (mk_date 2026 3 1)) "capital injection" POSTED ].
Proof.
  apply (proj2 (get_queryset_selects lenient_parse_date
                  (mk_request (Some "not-a-date") (Some "2026-03-31")) scenario)
           _ eq_refl).
  split; [simpl; tauto|]. split.
  - intros d [=].
  - intros d [= <-]. eexists. split; reflexivity.
Defined.

(** ** More on the trial balance *)

Lemma mizan_rows_closed (today : date) (req : Request) (db : Ledger) :
  mz_rows (mizan today req db)
  = map (mizan_row_of (mizan_lines today req db))
      (order_by (by_code fst)
         (nodup code_name_eq_dec (map code_name (mizan_lines today req db)))).
Proof.
  unfold mizan. rewrite mizan_loop. cbn [mz_rows app].
  unfold mizan_qs, values_annotate.
  set (rows := mizan_lines today req db).
  erewrite order_by_map with (lebA := by_code (fun k : string * string => fst k)).
  2:{ intros [c1 n1] [c2 n2]. reflexivity. }
  rewrite map_map. apply map_ext. intros [code name].
  unfold mizan_row, mizan_row_of. rewrite !or_zero_Sum. reflexivity.
Qed.

(** X8. The trial balance has one row per account (code and name) that has
    a selected line, and no other row; a row carries the debit and credit sums
    of that account's selected lines and their difference as balance. *)
Theorem mizan_rows_accounts (today : date) (req : Request) (db : Ledger) :
  let sel := mizan_lines today req db in
  let rows := mz_rows (mizan today req db) in
  NoDup (map (fun r => (mr_code r, mr_name r)) rows)
  /\ (forall k, In k (map (fun r => (mr_code r, mr_name r)) rows)
                <-> exists r, In r sel /\ code_name r = k)
  /\ (forall row, In row rows ->
        row = mizan_row_of sel (mr_code row, mr_name row)
        /\ mr_balance row = mr_debit row - mr_credit row).
Proof.
  cbv zeta. rewrite mizan_rows_closed.
  set (sel := mizan_lines today req db).
  set (ks := order_by (by_code fst) (nodup code_name_eq_dec (map code_name sel))).
  assert (Hk : map (fun r => (mr_code r, mr_name r)) (map (mizan_row_of sel) ks) = ks).
  { rewrite map_map. rewrite <- (map_id ks) at 2. apply map_ext.
    intros [c n]. reflexivity. }
  rewrite Hk. repeat split.
  - apply (Permutation_NoDup (order_by_perm _ _)), NoDup_nodup.
  - intro H. apply order_by_In, nodup_In, in_map_iff in H.
    destruct H as (r & Hr & HIn). eauto.
  - intros (r & HIn & <-). apply order_by_In, nodup_In, in_map, HIn.
  - apply in_map_iff in H as ([c n] & <- & _). reflexivity.
  - apply in_map_iff in H as ([c n] & <- & _). reflexivity.
Qed.

Lemma mizan_row_balances (qs : list (string * string * option Z * option Z)) :
  sum_Z (map mr_balance (map mizan_row qs))
  = sum_Z (map mr_debit (map mizan_row qs)) - sum_Z (map mr_credit (map mizan_row qs)).
Proof.
  induction qs as [|[[[c n] d] cr] qs IH]; [reflexivity|].
  change (sum_Z (map mr_balance (map mizan_row ((c, n, d, cr) :: qs))))
    with (or_zero d - or_zero cr + sum_Z (map mr_balance (map mizan_row qs))).
  change (sum_Z (map mr_debit (map mizan_row ((c, n, d, cr) :: qs))))
    with (or_zero d + sum_Z (map mr_debit (map mizan_row qs))).
  change (sum_Z (map mr_credit (map mizan_row ((c, n, d, cr) :: qs))))
    with (or_zero cr + sum_Z (map mr_credit (map mizan_row qs))).
  rewrite IH. lia.
Qed.

(** X9. The totals of the trial balance are the sums of its rows, the total
    balance is the sum of the row balances, and the two counts are the number
    of rows and the number of selected lines. *)
Theorem mizan_totals_of_rows (today : date) (req : Request) (db : Ledger) :
  let m := mizan today req db in
  mz_total_debit m = sum_Z (map mr_debit (mz_rows m))
  /\ mz_total_credit m = sum_Z (map mr_credit (mz_rows m))
  /\ mz_total_balance m = sum_Z (map mr_balance (mz_rows m))
  /\ mz_total_balance m = mz_total_debit m - mz_total_credit m
  /\ mz_rows_count m = Z.of_nat (List.length (mz_rows m))
  /\ mz_lines_count m = Z.of_nat (List.length (mizan_lines today req db)).
Proof.
  cbv zeta. unfold mizan. rewrite mizan_loop.
  cbn [mz_rows mz_total_debit mz_total_credit mz_total_balance mz_rows_count
       mz_lines_count app].
  set (qs := mizan_qs (mizan_lines today req db)).
  assert (Hd : sum_Z (map mr_debit (map mizan_row qs))
               = sum_Z (map (fun g => or_zero (snd (fst g))) qs)).
  { rewrite map_map. f_equal. apply map_ext. intros [[[c n] d] cr]. reflexivity. }
  assert (Hc : sum_Z (map mr_credit (map mizan_row qs))
               = sum_Z (map (fun g => or_zero (snd g)) qs)).
  { rewrite map_map. f_equal. apply map_ext. intros [[[c n] d] cr]. reflexivity. }
  rewrite mizan_row_balances, Hd, Hc. repeat split; lia.
Qed.

Lemma fromisoformat_truthy (s : string) (d : date) :
  fromisoformat s = Some d -> truthy s = true.
Proof. destruct s; [discriminate | reflexivity]. Qed.

Lemma requested_default (x : option string) (default d : date) :
  valid_date default = true ->
  requested x default = Some d ->
  fromisoformat (get_or x (isoformat default)) = Some d.
Proof.
  intros V. unfold requested, get_or.
  destruct x as [s|]; [destruct (truthy s)|];
    try (intros [= <-]; apply fromisoformat_isoformat, V).
  auto.
Qed.

(** X10. When both bounds can be read the trial balance selects the lines
    whose entry is dated between them; an absent or empty start means the
    first day of the current month and an absent or empty end means today. *)
Theorem mizan_window_defaults (today : date) (req : Request) (db : Ledger)
    (d_start d_end : date) :
  valid_date today = true ->
  requested (GET_start req) (first_day_of today) = Some d_start ->
  requested (GET_end req) today = Some d_end ->
  mizan_lines today req db = filter (window d_start d_end) (select_related db).
Proof.
  intros V Hs He.
  apply (requested_default _ _ _ (first_day_valid today V)) in Hs.
  apply (requested_default _ _ _ V) in He.
  unfold mizan_lines; cbv zeta. fold (first_day_of today).
  rewrite (fromisoformat_truthy _ _ Hs), (fromisoformat_truthy _ _ He), Hs, He.
  rewrite filter_filter. reflexivity.
Qed.

Lemma mizan_window_defaults_witness :
  mizan_lines mid_june (mk_request (Some "2026-03-01") None) scenario
  = filter (window (mk_date 2026 3 1) mid_june) (select_related scenario).
Proof.
  apply (mizan_window_defaults mid_june (mk_request (Some "2026-03-01") None) scenario);
    reflexivity.
Defined.

Lemma window_inverted (lo hi : date) (rows : list Joined) :
  date_leb lo hi = false -> filter (window lo hi) rows = [].
Proof.
  intro H. induction rows as [|r rows IH]; [reflexivity|].
  cbn [filter]. rewrite IH.
  unfold window, entry__date__gte, entry__date__lte, j_date_is.
  destruct (je_date (j_entry r)) as [x|]; [|reflexivity].
  destruct (date_leb lo x) eqn:E1; [|reflexivity].
  destruct (date_leb x hi) eqn:E2; [|reflexivity].
  rewrite (date_leb_trans _ _ _ E1 E2) in H. discriminate.
Qed.

(** X11. An end bound given alone is paired with the first day of the
    current month as start: when the end lies before that day the trial
    balance is empty, whatever the ledger holds. *)
Theorem mizan_end_before_month (today : date) (e : string) (d_end : date)
    (db : Ledger) :
  valid_date today = true ->
  fromisoformat e = Some d_end ->
  date_leb (first_day_of today) d_end = false ->
  mizan today (mk_request None (Some e)) db = mk_mizan [] 0 0 0 0 0.
Proof.
  intros V He Hlt.
  assert (E : mizan_lines today (mk_request None (Some e)) db = []).
  { unfold mizan_lines, get_or; cbn [GET_start GET_end]. fold (first_day_of today).
    rewrite (fromisoformat_truthy _ _ He), isoformat_truthy; cbn iota.
    rewrite (fromisoformat_truthy _ _ He).
    rewrite (fromisoformat_isoformat _ (first_day_valid today V)), He.
    rewrite filter_filter. apply (window_inverted _ _ _ Hlt). }
  unfold mizan. rewrite E. reflexivity.
Qed.

Lemma mizan_end_before_month_witness :
  mizan mid_june (mk_request None (Some "2026-03-31")) scenario
  = mk_mizan [] 0 0 0 0 0.
Proof.
  apply (mizan_end_before_month mid_june "2026-03-31" (mk_date 2026 3 31) scenario);
    reflexivity.
Defined.





(** *** Order of the rows *)

Lemma ascii_compare_lt_trans (a b c : ascii) :
  Ascii.compare a b = Lt -> Ascii.compare b c = Lt -> Ascii.compare a c = Lt.
Proof.
  unfold Ascii.compare. rewrite !N.compare_lt_iff. apply N.lt_trans.
Qed.

Lemma string_compare_lt_trans (a b c : string) :
  String.compare a b = Lt -> String.compare b c = Lt -> String.compare a c = Lt.
Proof.
  revert b c. induction a as [|x a IH]; intros [|y b] [|z c]; simpl;
    intros H1 H2; try discriminate; try reflexivity.
  destruct (Ascii.compare x y) eqn:Exy; try discriminate;
    destruct (Ascii.compare y z) eqn:Eyz; try discriminate.
  - apply Ascii.compare_eq_iff in Exy. apply Ascii.compare_eq_iff in Eyz. subst.
    replace (Ascii.compare z z) with Eq
      by (symmetry; apply N.compare_refl).
    eapply IH; eassumption.
  - apply Ascii.compare_eq_iff in Exy. subst. rewrite Eyz. reflexivity.
  - apply Ascii.compare_eq_iff in Eyz. subst. rewrite Exy. reflexivity.
  - rewrite (ascii_compare_lt_trans _ _ _ Exy Eyz). reflexivity.
Qed.

Lemma string_compare_refl (a : string) : String.compare a a = Eq.
Proof.
  induction a as [|x a IH]; simpl; [reflexivity|].
  replace (Ascii.compare x x) with Eq by (symmetry; apply N.compare_refl).
  exact IH.
Qed.

Lemma string_leb_cases (a b : string) :
  String.leb a b = true <-> String.compare a b = Lt \/ a = b.
Proof.
  unfold String.leb. split.
  - destruct (String.compare a b) eqn:E; [|auto|discriminate].
    intros _. right. apply String.compare_eq_iff, E.
  - intros [->| ->]; [reflexivity|].
    rewrite string_compare_refl. reflexivity.
Qed.

Lemma string_leb_trans (a b c : string) :
  String.leb a b = true -> String.leb b c = true -> String.leb a c = true.
Proof.
  rewrite !string_leb_cases. intros [H1| ->] [H2| ->]; auto.
  left. eapply string_compare_lt_trans; eassumption.
Qed.

Lemma string_leb_false (a b : string) :
  String.leb a b = false -> String.leb b a = true.
Proof.
  intro H. destruct (String.leb_total a b) as [E|E]; [congruence | exact E].
Qed.

Lemma StronglySorted_map {A B : Type} (R : A -> A -> Prop) (Q : B -> B -> Prop)
    (f : A -> B) (l : list A) :
  (forall a b, R a b -> Q (f a) (f b)) ->
  StronglySorted R l -> StronglySorted Q (map f l).
Proof.
  intros H. induction 1 as [|x l Hs IH Hx]; simpl; constructor; [exact IH|].
  apply Forall_map. eapply Forall_impl; [|exact Hx]. intros y. apply H.
Qed.

(** X12. The rows of the trial balance are in ascending order of account
    code. *)
Theorem mizan_rows_by_code (today : date) (req : Request) (db : Ledger) :
  StronglySorted code_le (mz_rows (mizan today req db)).
Proof.
  rewrite mizan_rows_closed.
  apply (StronglySorted_map
           (fun a b : string * string => String.leb (fst a) (fst b) = true)).
  - intros [c1 n1] [c2 n2] H. exact H.
  - apply (order_by_sorted_by (by_code fst)).
    + intros a b H. exact H.
    + intros a b H. apply string_leb_false, H.
    + intros a b c. apply string_leb_trans.
Qed.

(** ** The balance sheet in general *)

Lemma valid_year_end (year : Z) :
  1 <= year <= 9999 -> date_of year 12 31 = Some (mk_date year 12 31).
Proof.
  intro H. unfold date_of, valid_date; simpl.
  replace (1 <=? year) with true by (symmetry; apply Z.leb_le; lia).
  replace (year <=? 9999) with true by (symmetry; apply Z.leb_le; lia).
  reflexivity.
Qed.

Lemma invalid_year (year m d : Z) :
  ~ (1 <= year <= 9999) -> date_of year m d = None.
Proof.
  intro H. unfold date_of, valid_date; simpl.
  destruct (Z.leb_spec 1 year); [|reflexivity].
  destruct (Z.leb_spec year 9999); [lia | reflexivity].
Qed.

Lemma account_balance_until_closed (db : Ledger) (acc : Account) (year : Z)
    (cutoff : date) :
  date_of year 12 31 = Some cutoff ->
  _account_balance_until db acc year = Some (balance_until db cutoff acc).
Proof.
  intro H. unfold _account_balance_until. rewrite H. cbv zeta.
  rewrite !or_zero_Sum. unfold balance_until, raw_until, lines_until.
  destruct (acc_type acc); f_equal; lia.
Qed.

Lemma AccountType_eqb_refl (ty : AccountType) : AccountType_eqb ty ty = true.
Proof. destruct ty; reflexivity. Qed.

Lemma section_rows_cons (db : Ledger) (cutoff : date) (ty : AccountType)
    (a : Account) (accs : list Account) :
  section_rows db cutoff ty (a :: accs)
  = ((if of_type ty a && negb (balance_until db cutoff a =? 0)
      then [mk_balance_row (acc_code a) (acc_name a) (balance_until db cutoff a)]
      else []) ++ section_rows db cutoff ty accs)%list.
Proof.
  unfold section_rows. cbn [filter].
  destruct (of_type ty a && negb (balance_until db cutoff a =? 0)); reflexivity.
Qed.

Lemma type_total_cons (db : Ledger) (cutoff : date) (ty : AccountType)
    (a : Account) (accs : list Account) :
  type_total db cutoff ty (a :: accs)
  = (if of_type ty a then balance_until db cutoff a else 0)
    + type_total db cutoff ty accs.
Proof.
  unfold type_total. cbn [filter]. destruct (of_type ty a); reflexivity.
Qed.

Lemma mk_balance_acc_eq (a a' l l' e e' : list BalanceRow) (i i' x x' : Z) :
  a = a' -> l = l' -> e = e' -> i = i' -> x = x' ->
  Some (mk_balance_acc a l e i x) = Some (mk_balance_acc a' l' e' i' x').
Proof. congruence. Qed.

Lemma balance_loop (db : Ledger) (year : Z) (cutoff : date) (accs : list Account)
    (s : BalanceAcc) :
  date_of year 12 31 = Some cutoff ->
  fold_left (balance_step db year) accs (Some s)
  = Some (mk_balance_acc
            (ba_assets s ++ section_rows db cutoff ASSET accs)%list
            (ba_liabilities s ++ section_rows db cutoff LIABILITY accs)%list
            (ba_equities s ++ section_rows db cutoff EQUITY accs)%list
            (ba_income_total s + type_total db cutoff INCOME accs)
            (ba_expense_total s + type_total db cutoff EXPENSE accs)).
Proof.
  intro Hc. revert s. induction accs as [|a accs IH]; intro s.
  - simpl. unfold type_total; simpl. rewrite !app_nil_r, !Z.add_0_r.
    destruct s; reflexivity.
  - cbn [fold_left]. unfold balance_step at 2.
    rewrite (account_balance_until_closed db a year cutoff Hc).
    rewrite !section_rows_cons, !type_total_cons. unfold of_type.
    destruct (Z.eqb_spec (balance_until db cutoff a) 0) as [E0|E0].
    + rewrite IH, !andb_false_r. cbn [app].
      apply mk_balance_acc_eq; try reflexivity;
        destruct (AccountType_eqb (acc_type a) _); lia.
    + rewrite !andb_true_r.
      destruct (acc_type a); rewrite IH;
        cbn [AccountType_eqb ba_assets ba_liabilities ba_equities
             ba_income_total ba_expense_total];
        apply mk_balance_acc_eq;
        rewrite <- ?app_assoc; try reflexivity; lia.
Qed.

Lemma total_of_section (db : Ledger) (cutoff : date) (ty : AccountType)
    (accs : list Account) (extra : list BalanceRow) :
  total_of (section_rows db cutoff ty accs ++ extra)
  = type_total db cutoff ty accs + sum_Z (map br_balance extra).
Proof.
  assert (T : forall rows, total_of rows = sum_Z (map br_balance rows))
    by (intros [|r rows]; reflexivity).
  rewrite T, map_app, sum_Z_app. f_equal.
  unfold section_rows, type_total. rewrite map_map. cbn [br_balance].
  induction accs as [|a accs IH]; [reflexivity|].
  cbn [filter]. destruct (of_type ty a); cbn [andb]; [|exact IH].
  destruct (Z.eqb_spec (balance_until db cutoff a) 0) as [E0|E0]; cbn [negb].
  - change (sum_Z (map ?f (a :: ?l))) with (f a + sum_Z (map f l)).
    rewrite IH, E0. reflexivity.
  - change (sum_Z (map ?f (a :: ?l))) with (f a + sum_Z (map f l)).
    rewrite IH. reflexivity.
Qed.

Lemma total_of_section_alone (db : Ledger) (cutoff : date) (ty : AccountType)
    (accs : list Account) :
  total_of (section_rows db cutoff ty accs) = type_total db cutoff ty accs.
Proof.
  rewrite <- (app_nil_r (section_rows db cutoff ty accs)), total_of_section.
  simpl. lia.
Qed.

Lemma net_row_sum (net : Z) : sum_Z (map br_balance (net_row net)) = net.
Proof.
  unfold net_row. destruct (Z.eqb_spec net 0) as [->|_]; simpl; lia.
Qed.

Lemma generate_balance_closed (db : Ledger) (year : Z) :
  1 <= year <= 9999 ->
  let cutoff := mk_date year 12 31 in
  let accs := order_by (by_code acc_code) (accounts db) in
  let net := type_total db cutoff INCOME accs - type_total db cutoff EXPENSE accs in
  let total_assets := type_total db cutoff ASSET accs in
  let total_le := type_total db cutoff LIABILITY accs
                  + (type_total db cutoff EQUITY accs + net) in
  generate_balance db year
  = Some (mk_balance_sheet
            (section_rows db cutoff ASSET accs)
            (section_rows db cutoff LIABILITY accs)
            (section_rows db cutoff EQUITY accs ++ net_row net)%list
            total_assets total_le (total_assets =? total_le) net).
Proof.
  intro Hy. cbv zeta. unfold generate_balance.
  rewrite (balance_loop db year _ _ _ (valid_year_end year Hy)).
  cbn [ba_assets ba_liabilities ba_equities ba_income_total ba_expense_total app].
  rewrite !Z.add_0_l.
  set (accs := order_by (by_code acc_code) (accounts db)).
  set (cutoff := mk_date year 12 31).
  set (net := type_total db cutoff INCOME accs - type_total db cutoff EXPENSE accs).
  assert (Eq : (if negb (net =? 0)
                then (section_rows db cutoff EQUITY accs
                      ++ [mk_balance_row "DNET" DNET_name net])%list
                else section_rows db cutoff EQUITY accs)
               = (section_rows db cutoff EQUITY accs ++ net_row net)%list).
  { unfold net_row. destruct (negb (net =? 0)); [reflexivity|].
    rewrite app_nil_r. reflexivity. }
  rewrite Eq.
  rewrite total_of_section, net_row_sum, !total_of_section_alone. reflexivity.
Qed.

(** X13. For a year that [date] accepts the balance sheet lists, in code
    order, the ASSET, LIABILITY and EQUITY accounts whose balance up to 31
    December is not zero, each with that balance; the net result is the INCOME
    balances minus the EXPENSE balances and is appended to the equities as the
    row DNET when it is not zero; the totals are the sums of the sections and
    [match] compares them. *)
Theorem balance_sheet_rows (db : Ledger) (year : Z) :
  1 <= year <= 9999 ->
  let cutoff := mk_date year 12 31 in
  let accs := order_by (by_code acc_code) (accounts db) in
  let net := type_total db cutoff INCOME accs - type_total db cutoff EXPENSE accs in
  let total_assets := type_total db cutoff ASSET accs in
  let total_le := type_total db cutoff LIABILITY accs
                  + (type_total db cutoff EQUITY accs + net) in
  generate_balance db year
  = Some (mk_balance_sheet
            (section_rows db cutoff ASSET accs)
            (section_rows db cutoff LIABILITY accs)
            (section_rows db cutoff EQUITY accs ++ net_row net)%list
            total_assets total_le (total_assets =? total_le) net).
Proof. exact (generate_balance_closed db year). Qed.

Lemma balance_sheet_rows_witness :
  generate_balance scenario 2026
  = Some (mk_balance_sheet
            [mk_balance_row "100" "Cash" 115000]
            []
            [mk_balance_row "500" "Capital" 100000;
             mk_balance_row "DNET" DNET_name 15000]
            115000 115000 true 15000).
Proof. exact (balance_sheet_rows scenario 2026 ltac:(lia)). Defined.

(** *** The accounting equation *)

Lemma entry_date_is_sel (db : Ledger) (p : date -> bool) (l : JournalLine) :
  entry_date_is db p l = entry_id_sel db (on_date p) (jl_entry_id l).
Proof. reflexivity. Qed.

(** The lines of the entries selected by their date carry as much debit as
    credit when every entry is balanced. *)
Lemma selected_lines_balanced (db : Ledger) (sel : option date -> bool) :
  every_entry_balanced db ->
  sum_Z (map jl_debit (filter (fun l => entry_id_sel db sel (jl_entry_id l)) (lines db)))
  = sum_Z (map jl_credit
             (filter (fun l => entry_id_sel db sel (jl_entry_id l)) (lines db))).
Proof.
  intro Hbal. apply (whole_entries_balanced (entry_id_sel db sel)).
  intros i Hi. unfold entry_id_sel in Hi.
  destruct (find _ (entries db)) as [e|] eqn:E; [|discriminate].
  apply find_some in E as [He Hpk].
  specialize (Hbal e He). unfold total_debit, total_credit, lines_of in Hbal.
  destruct (je_pk e) as [k|]; [|discriminate].
  simpl in Hpk. apply Z.eqb_eq in Hpk. subst k. exact Hbal.
Qed.

Lemma lines_until_swap (db : Ledger) (cutoff : date) (acc : Account) :
  lines_until db cutoff acc
  = filter (fun l => jl_account_id l =? acc_id acc)
      (filter (entry_date_is db (fun d => date_leb d cutoff)) (lines db)).
Proof.
  unfold lines_until. rewrite !filter_filter. apply filter_ext. intro l.
  apply andb_comm.
Qed.

(** Summed over all accounts, the sections cancel down to debit minus credit. *)
Lemma sections_cancel (db : Ledger) (cutoff : date) (accs : list Account) :
  type_total db cutoff ASSET accs
  - (type_total db cutoff LIABILITY accs
     + (type_total db cutoff EQUITY accs
        + (type_total db cutoff INCOME accs - type_total db cutoff EXPENSE accs)))
  = sum_Z (map (raw_until db cutoff) accs).
Proof.
  induction accs as [|a accs IH]; [reflexivity|].
  rewrite !type_total_cons.
  change (sum_Z (map (raw_until db cutoff) (a :: accs)))
    with (raw_until db cutoff a + sum_Z (map (raw_until db cutoff) accs)).
  rewrite <- IH. unfold of_type, balance_until.
  destruct (acc_type a); cbn [AccountType_eqb]; lia.
Qed.

Lemma sum_Z_minus {A : Type} (f g : A -> Z) (l : list A) :
  sum_Z (map (fun a => f a - g a) l) = sum_Z (map f l) - sum_Z (map g l).
Proof.
  induction l as [|a l IH]; [reflexivity|].
  change (sum_Z (map ?h (a :: l))) with (h a + sum_Z (map h l)).
  rewrite IH. lia.
Qed.

Lemma sum_over_accounts (db : Ledger) (f : JournalLine -> Z)
    (rows : list JournalLine) :
  account_ids_unique db ->
  (forall l, In l rows -> In (jl_account_id l) (map acc_id (accounts db))) ->
  sum_Z (map (fun a => sum_Z (map f (filter (fun l => jl_account_id l =? acc_id a) rows)))
           (accounts db))
  = sum_Z (map f rows).
Proof.
  intros ND Hcov.
  rewrite <- (sum_by_key jl_account_id (fun k l => jl_account_id l =? k)
                (fun k l => Z.eqb_eq (jl_account_id l) k)
                f (map acc_id (accounts db)) rows ND Hcov).
  rewrite map_map. reflexivity.
Qed.

Lemma raw_total_zero (db : Ledger) (cutoff : date) :
  accounts_exist db -> account_ids_unique db -> every_entry_balanced db ->
  sum_Z (map (raw_until db cutoff) (accounts db)) = 0.
Proof.
  intros FK ND Hbal.
  set (dated := filter (entry_date_is db (fun d => date_leb d cutoff)) (lines db)).
  assert (Hcov : forall l, In l dated -> In (jl_account_id l) (map acc_id (accounts db))).
  { intros l Hl. apply filter_In in Hl as [Hl _].
    destruct (FK l Hl) as (a & Ha & <-). apply in_map, Ha. }
  unfold raw_until.
  rewrite (sum_Z_minus (fun a => sum_Z (map jl_debit (lines_until db cutoff a)))
             (fun a => sum_Z (map jl_credit (lines_until db cutoff a)))).
  erewrite (map_ext (fun a => sum_Z (map jl_debit (lines_until db cutoff a))))
    by (intro a; rewrite lines_until_swap; reflexivity).
  erewrite (map_ext (fun a => sum_Z (map jl_credit (lines_until db cutoff a))))
    by (intro a; rewrite lines_until_swap; reflexivity).
  fold dated.
  rewrite (sum_over_accounts db jl_debit dated ND Hcov).
  rewrite (sum_over_accounts db jl_credit dated ND Hcov).
  unfold dated.
  rewrite (filter_ext _ (fun l => entry_id_sel db (on_date (fun d => date_leb d cutoff))
                                    (jl_entry_id l)) (entry_date_is_sel db _)).
  rewrite (selected_lines_balanced db _ Hbal). lia.
Qed.

(** X14. In a ledger whose entries are each balanced the balance sheet of
    any year that [date] accepts matches: total assets equal total liabilities
    plus equity, the net result included. *)
Theorem balance_sheet_matches (db : Ledger) (year : Z) :
  accounts_exist db -> account_ids_unique db -> every_entry_balanced db ->
  1 <= year <= 9999 ->
  exists sheet, generate_balance db year = Some sheet
                /\ bs_total_assets sheet = bs_total_liabilities_equity sheet
                /\ bs_match sheet = true.
Proof.
  intros FK ND Hbal Hy.
  rewrite (generate_balance_closed db year Hy). eexists. split; [reflexivity|].
  cbn [bs_total_assets bs_total_liabilities_equity bs_match].
  set (cutoff := mk_date year 12 31).
  set (accs := order_by (by_code acc_code) (accounts db)).
  assert (E : sum_Z (map (raw_until db cutoff) accs) = 0).
  { rewrite <- (raw_total_zero db cutoff FK ND Hbal).
    apply sum_Z_perm, Permutation_map, Permutation_sym, order_by_perm. }
  pose proof (sections_cancel db cutoff accs) as C. rewrite E in C.
  split; [lia | apply Z.eqb_eq; lia].
Qed.

Lemma account_ids_unique_scenario : account_ids_unique scenario.
Proof.
  unfold account_ids_unique. simpl. repeat constructor; simpl; intuition discriminate.
Qed.

Lemma balance_sheet_matches_witness :
  exists sheet, generate_balance scenario 2026 = Some sheet
                /\ bs_total_assets sheet = bs_total_liabilities_equity sheet
                /\ bs_match sheet = true.
Proof.
  apply (balance_sheet_matches scenario 2026).
  - exact accounts_exist_scenario.
  - exact account_ids_unique_scenario.
  - exact every_entry_balanced_scenario.
  - lia.
Defined.

(** *** Years that [date] rejects *)

Lemma balance_loop_none (db : Ledger) (year : Z) (accs : list Account) :
  fold_left (balance_step db year) accs None = None.
Proof. induction accs as [|a accs IH]; [reflexivity | exact IH]. Qed.

(** X15. For a year outside 1..9999 the income statement raises, and so
    does the balance sheet as soon as one account exists; without any account
    the balance sheet is the empty sheet, for every year. *)
Theorem reports_out_of_range_year (db : Ledger) (year : Z) :
  (~ (1 <= year <= 9999) -> generate_income_statement db year = None)
  /\ (~ (1 <= year <= 9999) -> accounts db <> [] -> generate_balance db year = None)
  /\ (accounts db = [] -> generate_balance db year = Some empty_sheet).
Proof.
  repeat split.
  - intro H. unfold generate_income_statement.
    rewrite (invalid_year year 1 1 H). reflexivity.
  - intros H Hne. unfold generate_balance.
    destruct (order_by (by_code acc_code) (accounts db)) as [|a accs] eqn:E.
    + exfalso. apply Hne.
      apply Permutation_nil, Permutation_sym. rewrite <- E. apply order_by_perm.
    + cbn [fold_left]. unfold balance_step at 2. unfold _account_balance_until.
      rewrite (invalid_year year 12 31 H), balance_loop_none. reflexivity.
  - intro H. unfold generate_balance. rewrite H. reflexivity.
Qed.

Lemma reports_out_of_range_year_witness :
  generate_income_statement scenario 0 = None
  /\ generate_balance scenario 10000 = None
  /\ generate_balance empty_ledger 0 = Some empty_sheet.
Proof.
  split; [|split].
  - apply (proj1 (reports_out_of_range_year scenario 0)). lia.
  - apply (proj1 (proj2 (reports_out_of_range_year scenario 10000))); [lia|].
    discriminate.
  - apply (proj2 (proj2 (reports_out_of_range_year empty_ledger 0))). reflexivity.
Defined.

(** ** More on account balances *)

Lemma filter_all {A : Type} (p : A -> bool) (l : list A) :
  (forall x, In x l -> p x = true) -> filter p l = l.
Proof.
  intro H. induction l as [|x l IH]; [reflexivity|].
  cbn [filter]. rewrite (H x (or_introl eq_refl)), IH; [reflexivity|].
  intros y Hy. apply H. right. exact Hy.
Qed.

(** X16. When no line of the account is dated after 31 December of the
    year, the balance the balance sheet uses is the account's overall
    [get_balance]: both apply the same sign rule. *)
Theorem account_balance_until_agrees (db : Ledger) (acc : Account) (year : Z) :
  1 <= year <= 9999 ->
  (forall l, In l (lines db) -> jl_account_id l = acc_id acc ->
             entry_date_is db (fun d => date_leb d (mk_date year 12 31)) l = true) ->
  _account_balance_until db acc year = get_balance db acc None None
  /\ exists v, get_balance db acc None None = Some v.
Proof.
  intros Hy Hall. unfold _account_balance_until, get_balance.
  rewrite (valid_year_end year Hy). cbv zeta.
  rewrite filter_all; [split; [reflexivity | eexists; reflexivity]|].
  intros l Hl. apply filter_In in Hl as [Hl Ha].
  apply Hall; [exact Hl | apply Z.eqb_eq, Ha].
Qed.

Lemma account_balance_until_agrees_witness :
  _account_balance_until scenario cash 2026 = get_balance scenario cash None None
  /\ exists v, get_balance scenario cash None None = Some v.
Proof.
  apply (account_balance_until_agrees scenario cash 2026); [lia|].
  intros l Hl _. simpl in Hl.
  repeat (destruct Hl as [<-|Hl]; [reflexivity|]). contradiction.
Defined.

Lemma month_of_spec (db : Ledger) (m : Z) (l : JournalLine) :
  m <> 0 ->
  entry_date_is db (fun d => d_month d =? m) l = (month_of db l =? m).
Proof.
  intro Hm. unfold entry_date_is, month_of.
  destruct (entry_of db l) as [e|]; [destruct (je_date e) as [d|]|];
    try reflexivity; symmetry; apply Z.eqb_neq; lia.
Qed.

Lemma month_of_dated (db : Ledger) (p : date -> bool) (l : JournalLine) :
  dates_valid db -> entry_date_is db p l = true -> In (month_of db l) months.
Proof.
  intros V H. unfold entry_date_is, month_of in *.
  destruct (entry_of db l) as [e|] eqn:E; [|discriminate].
  destruct (je_date e) as [d|] eqn:D; [|discriminate].
  apply find_some in E as [He _].
  destruct (valid_date_bounds d (V e d He D)) as (_ & Hm & _).
  unfold months.
  assert (C : d_month d = 1 \/ d_month d = 2 \/ d_month d = 3 \/ d_month d = 4
              \/ d_month d = 5 \/ d_month d = 6 \/ d_month d = 7 \/ d_month d = 8
              \/ d_month d = 9 \/ d_month d = 10 \/ d_month d = 11 \/ d_month d = 12)
    by lia.
  simpl. intuition.
Qed.

Lemma months_NoDup : NoDup months.
Proof. unfold months. repeat constructor; simpl; intuition discriminate. Qed.

Lemma sum_by_month (db : Ledger) (f : JournalLine -> Z) (p : date -> bool)
    (rows : list JournalLine) :
  dates_valid db ->
  sum_Z (map (fun m => sum_Z (map f (filter (entry_date_is db (fun d => d_month d =? m))
                                       (filter (entry_date_is db p) rows))))
           months)
  = sum_Z (map f (filter (entry_date_is db p) rows)).
Proof.
  intro V.
  rewrite <- (sum_by_key (month_of db) (fun k l => month_of db l =? k)
                (fun k l => Z.eqb_eq (month_of db l) k)
                f months (filter (entry_date_is db p) rows) months_NoDup).
  - f_equal. apply map_ext_in. intros m Hm. f_equal. f_equal.
    apply filter_ext. intro l. apply month_of_spec.
    intros ->. simpl in Hm. intuition discriminate.
  - intros l Hl. apply filter_In in Hl as [_ Hl].
    apply (month_of_dated db p l V Hl).
Qed.

(** X17. With calendar dates in the store and a year in 1..9999,
    [get_balance] returns a value for the year and for each of its twelve
    months, and the year's balance is the sum of the twelve monthly
    balances. *)
Theorem get_balance_year_by_months (db : Ledger) (acc : Account) (y : Z) :
  dates_valid db ->
  1 <= y <= 9999 ->
  exists monthly,
    map (fun m => get_balance db acc (Some y) (Some m)) months = map Some monthly
    /\ get_balance db acc (Some y) None = Some (sum_Z monthly).
Proof.
  intros V Hy.
  set (acct := filter (fun l => jl_account_id l =? acc_id acc) (lines db)).
  set (py := fun d => d_year d =? y).
  set (in_month := fun m : Z =>
         filter (entry_date_is db (fun d => d_month d =? m))
           (filter (entry_date_is db py) acct)).
  set (signed := fun d c : Z =>
         match acc_type acc with
         | ASSET | EXPENSE => d - c
         | _ => c - d
         end).
  exists (map (fun m => signed (sum_Z (map jl_debit (in_month m)))
                          (sum_Z (map jl_credit (in_month m)))) months).
  split.
  - rewrite map_map. apply map_ext. intro m.
    unfold get_balance. rewrite (year_lookup y Hy). cbv zeta.
    rewrite !or_zero_Sum. reflexivity.
  - unfold get_balance. rewrite (year_lookup y Hy). cbv zeta.
    rewrite !or_zero_Sum. fold acct. fold py.
    rewrite <- (sum_by_month db jl_debit py acct V).
    rewrite <- (sum_by_month db jl_credit py acct V).
    fold in_month. f_equal. unfold signed.
    destruct (acc_type acc); rewrite <- sum_Z_minus; reflexivity.
Qed.

Lemma dates_valid_scenario : dates_valid scenario.
Proof.
  intros e d He Hd. simpl in He.
  repeat (destruct He as [<-|He]; [injection Hd as <-; reflexivity|]).
  contradiction.
Qed.

Lemma get_balance_year_by_months_witness :
  exists monthly,
    map (fun m => get_balance scenario cash (Some 2026) (Some m)) months
    = map Some monthly
    /\ get_balance scenario cash (Some 2026) None = Some (sum_Z monthly).
Proof.
  exact (get_balance_year_by_months scenario cash 2026 dates_valid_scenario
           ltac:(lia)).
Defined.

(** ** Further instances *)


Lemma mizan_rows_accounts_witness :
  In ("100", "Cash")
     (map (fun r => (mr_code r, mr_name r))
          (mz_rows (mizan mid_june no_params scenario))).
Proof.
  pose proof (mizan_rows_accounts mid_june no_params scenario) as H.
  cbv zeta in H. destruct H as (_ & H & _).
  apply (proj2 (H ("100", "Cash"))).
  exists (mk_joined (mk_line 3 2 1 1 20000 0)
            (mk_entry (Some 2) (Some (mk_date 2026 6 1)) "sale" POSTED)
            (mk_account 1 "100" "Cash" ASSET)).
  split; [vm_compute; tauto | reflexivity].
Defined.
